(** * Book catalogue pipeline: crawler, normalisation and analysis

    A shallow embedding of [data_retrieval.py] (get_book_details,
    scrape_books, process_book_data) and of the three analysis functions of
    [streamlit_app.py], with the properties the specification states about
    them.

    Conventions of the embedding.
    - A Python [str] is the list of its Unicode code points ([pystr]).
    - A Python [dict] keeps insertion order, so it is an association list
      without repeated keys ([dict_set] overwrites in place or appends).
    - A pandas frame is column oriented: an ordered list of named columns.
    - A Python [float] is modelled by the exact decimal value it is parsed
      from or computed to (a rational), together with the three special
      values inf, -inf and nan; binary64 rounding and overflow are not part
      of the model.  Python integers are unbounded ([Z]); the interpreter's
      limit on the number of digits [int] accepts is not modelled.
    - Network access and HTML parsing are the environment: a [site] says
      what each request returns and what each page query finds.
    - [print] is a log of events, threaded through the crawler. *)

From Stdlib Require Import List ZArith NArith QArith Qround Bool Lia Sorted.
From Stdlib Require String Ascii PrimFloat Uint63.
Import ListNotations.
Import String.StringSyntax.

Close Scope Q_scope.
Local Open Scope N_scope.
Local Open Scope list_scope.

(* ================================================================== *)
(** ** Python strings *)

Definition char := N.
Definition pystr := list char.

(** String literals of the source are written as Rocq strings; [ustr]
    decodes their UTF-8 bytes into code points. *)
Fixpoint utf8_go (need : nat) (acc : N) (bs : list N) : pystr :=
  match bs with
  | [] => []
  | b :: bs' =>
      match need with
      | O => if b <? 0x80 then b :: utf8_go 0 0 bs'
             else if b <? 0xE0 then utf8_go 1 (b - 0xC0) bs'
             else if b <? 0xF0 then utf8_go 2 (b - 0xE0) bs'
             else utf8_go 3 (b - 0xF0) bs'
      | S O => (acc * 64 + (b - 0x80)) :: utf8_go 0 0 bs'
      | S k => utf8_go k (acc * 64 + (b - 0x80)) bs'
      end
  end.

Definition ustr (s : String.string) : pystr :=
  utf8_go 0 0 (map Ascii.N_of_ascii (String.list_ascii_of_string s)).

Delimit Scope string_scope with string.
Arguments ustr s%_string.

Definition str_eqb (a b : pystr) : bool :=
  if list_eq_dec N.eq_dec a b then true else false.

(** [str.isspace]: the characters [str.split()] and [str.strip()] treat as
    white space. *)
Definition isspace (c : char) : bool :=
  ((9 <=? c) && (c <=? 13)) || ((28 <=? c) && (c <=? 32))
  || (c =? 0x85) || (c =? 0xA0) || (c =? 0x1680)
  || ((0x2000 <=? c) && (c <=? 0x200A))
  || (c =? 0x2028) || (c =? 0x2029) || (c =? 0x202F) || (c =? 0x205F)
  || (c =? 0x3000).

(** Unicode decimal digits (general category Nd, Unicode 14): blocks given
    by first code point and size; inside a block the digit value is the
    offset modulo ten.  This is what [\d] matches in a [str] pattern and
    what [int] and [float] accept as digits. *)
Definition Nd_blocks : list (N * N) :=
  [ (0x30, 10); (0x660, 10); (0x6F0, 10); (0x7C0, 10); (0x966, 10);
    (0x9E6, 10); (0xA66, 10); (0xAE6, 10); (0xB66, 10); (0xBE6, 10);
    (0xC66, 10); (0xCE6, 10); (0xD66, 10); (0xDE6, 10); (0xE50, 10);
    (0xED0, 10); (0xF20, 10); (0x1040, 10); (0x1090, 10); (0x17E0, 10);
    (0x1810, 10); (0x1946, 10); (0x19D0, 10); (0x1A80, 10); (0x1A90, 10);
    (0x1B50, 10); (0x1BB0, 10); (0x1C40, 10); (0x1C50, 10); (0xA620, 10);
    (0xA8D0, 10); (0xA900, 10); (0xA9D0, 10); (0xA9F0, 10); (0xAA50, 10);
    (0xABF0, 10); (0xFF10, 10); (0x104A0, 10); (0x10D30, 10); (0x11066, 10);
    (0x110F0, 10); (0x11136, 10); (0x111D0, 10); (0x112F0, 10); (0x11450, 10);
    (0x114D0, 10); (0x11650, 10); (0x116C0, 10); (0x11730, 10); (0x118E0, 10);
    (0x11950, 10); (0x11C50, 10); (0x11D50, 10); (0x11DA0, 10); (0x16A60, 10);
    (0x16AC0, 10); (0x16B50, 10); (0x1D7CE, 50); (0x1E140, 10); (0x1E2F0, 10);
    (0x1E950, 10); (0x1FBF0, 10) ].

Fixpoint digit_in (blocks : list (N * N)) (c : char) : option N :=
  match blocks with
  | [] => None
  | (start, size) :: rest =>
      if (start <=? c) && (c <? start + size)
      then Some ((c - start) mod 10)
      else digit_in rest c
  end.

Definition digit_value (c : char) : option N := digit_in Nd_blocks c.

Definition isdigit (c : char) : bool :=
  match digit_value c with Some _ => true | None => false end.

(** The ASCII digits 0-9 only. *)
Definition is_ascii_digit (c : char) : bool := (0x30 <=? c) && (c <=? 0x39).

(** [p in s] for strings. *)
Fixpoint starts_with (p s : pystr) : bool :=
  match p, s with
  | [], _ => true
  | _ :: _, [] => false
  | a :: p', b :: s' => (a =? b) && starts_with p' s'
  end.

Fixpoint contains (sub s : pystr) : bool :=
  starts_with sub s
  || match s with [] => false | _ :: s' => contains sub s' end.

(** [s.replace(old, new)]: every occurrence, left to right, without
    overlap.  [skip] counts the characters of a matched occurrence that are
    still to be dropped. *)
Fixpoint replace_from (old new : pystr) (skip : nat) (s : pystr) : pystr :=
  match s with
  | [] => []
  | c :: s' =>
      match skip with
      | S k => replace_from old new k s'
      | O => if starts_with old s
             then new ++ replace_from old new (List.length old - 1) s'
             else c :: replace_from old new 0 s'
      end
  end.

Definition replace (old new s : pystr) : pystr :=
  match old with
  | [] => new ++ flat_map (fun c => c :: new) s
  | _ :: _ => replace_from old new 0 s
  end.

Fixpoint drop_while (p : char -> bool) (s : pystr) : pystr :=
  match s with
  | [] => []
  | c :: s' => if p c then drop_while p s' else s
  end.

Definition strip_with (p : char -> bool) (s : pystr) : pystr :=
  rev (drop_while p (rev (drop_while p s))).

(** [s.strip()] *)
Definition strip (s : pystr) : pystr := strip_with isspace s.

(** [s.split()]: maximal runs of characters that are not white space.
    [cur] is the word being read, reversed. *)
Fixpoint split_go (cur : pystr) (s : pystr) : list pystr :=
  match s with
  | [] => match cur with [] => [] | _ :: _ => [rev cur] end
  | c :: s' =>
      if isspace c
      then match cur with
           | [] => split_go [] s'
           | _ :: _ => rev cur :: split_go [] s'
           end
      else split_go (c :: cur) s'
  end.

Definition split (s : pystr) : list pystr := split_go [] s.

(** [re.search(r'\d+', s)]: the leftmost, longest run of decimal digits;
    [.group()] is the matched text. *)
Fixpoint take_digits (s : pystr) : pystr :=
  match s with
  | c :: s' => if isdigit c then c :: take_digits s' else []
  | [] => []
  end.

Fixpoint re_search_digits (s : pystr) : option pystr :=
  match s with
  | [] => None
  | c :: s' => if isdigit c then Some (c :: take_digits s')
               else re_search_digits s'
  end.

(** [int(ds)] on a run of decimal digits. *)
Definition digit_or_zero (c : char) : N :=
  match digit_value c with Some d => d | None => 0 end.

Definition int_of_digits (ds : pystr) : Z :=
  Z.of_N (fold_left (fun acc c => acc * 10 + digit_or_zero c) ds 0).

(* ================================================================== *)
(** ** Exceptions *)

Inductive exn :=
| KeyError (key : pystr)
| ValueError (text : pystr).

Inductive result (A : Type) :=
| Ok (a : A)
| Raise (e : exn).

Arguments Ok {A} a.
Arguments Raise {A} e.

Definition bind {A B} (r : result A) (k : A -> result B) : result B :=
  match r with
  | Ok a => k a
  | Raise e => Raise e
  end.

Notation "x <- r ;; k" := (bind r (fun x => k))
  (at level 61, r at next level, right associativity).

Fixpoint mapM {A B} (f : A -> result B) (l : list A) : result (list B) :=
  match l with
  | [] => Ok []
  | a :: l' => b <- f a ;; bs <- mapM f l' ;; Ok (b :: bs)
  end.

(* ================================================================== *)
(** ** Python floats and [float(str)] *)

Inductive pyfloat :=
| Fin (q : Q)
| PInf
| NInf
| FNaN.

Definition float_neg (f : pyfloat) : pyfloat :=
  match f with
  | Fin q => Fin (- q)
  | PInf => NInf
  | NInf => PInf
  | FNaN => FNaN
  end.

(** [f > q] and [f < q] as Python compares floats: false on nan. *)
Definition float_gt (f : pyfloat) (q : Q) : bool :=
  match f with
  | Fin x => negb (Qle_bool x q)
  | PInf => true
  | NInf | FNaN => false
  end.


Definition MINUS_SIGN : char := 0x2D.

(** [0 <= f], the non-negativity the specification asks of a price. *)
Definition float_nonneg (f : pyfloat) : Prop :=
  match f with
  | Fin x => (0 <= x)%Q
  | PInf => True
  | NInf | FNaN => False
  end.

(** [float] first maps every non-ASCII white space to a blank, every
    non-ASCII decimal digit to its ASCII digit and any other non-ASCII
    character to a question mark. *)
Definition to_ascii_decimal (c : char) : char :=
  if c <? 127 then c
  else if isspace c then 32
  else match digit_value c with
       | Some d => 0x30 + d
       | None => 0x3F
       end.

(** The blanks [float] strips at both ends of the transformed text. *)
Definition is_c_space (c : char) : bool :=
  ((9 <=? c) && (c <=? 13)) || (c =? 32).

(** Underscores may only stand between two digits; they are removed. *)
Fixpoint remove_underscores (prev : char) (s : pystr) : option pystr :=
  match s with
  | [] => if prev =? 0x5F then None else Some []
  | c :: s' =>
      if c =? 0x5F
      then if is_ascii_digit prev then remove_underscores c s' else None
      else if (prev =? 0x5F) && negb (is_ascii_digit c) then None
           else option_map (cons c) (remove_underscores c s')
  end.

Fixpoint span_digits (s : pystr) : pystr * pystr :=
  match s with
  | c :: s' =>
      if is_ascii_digit c
      then let (ds, r) := span_digits s' in (c :: ds, r)
      else ([], s)
  | [] => ([], [])
  end.

Definition N_of_digits (ds : pystr) : N :=
  fold_left (fun acc c => acc * 10 + digit_or_zero c) ds 0.

(** The decimal [m * 10^e]. *)
Definition decimal (m : N) (e : Z) : Q :=
  if (0 <=? e)%Z then (Z.of_N m * 10 ^ e) # 1
  else Z.of_N m # Z.to_pos (10 ^ (- e)).

Definition lower (c : char) : char :=
  if (0x41 <=? c) && (c <=? 0x5A) then c + 32 else c.

(** An optional sign: [true] for a minus. *)
Definition take_sign (s : pystr) : bool * pystr :=
  match s with
  | c :: s' => if c =? 0x2D then (true, s')
               else if c =? 0x2B then (false, s') else (false, s)
  | [] => (false, [])
  end.

(** digits [. digits] [e [sign] digits], with a digit before or after the
    point, and nothing left over. *)
Definition parse_decimal (s : pystr) : option Q :=
  let (ip, r1) := span_digits s in
  let (fp, r2) := match r1 with
                  | c :: r => if c =? 0x2E then span_digits r else ([], r1)
                  | [] => ([], r1)
                  end in
  let m := N_of_digits (ip ++ fp) in
  let shift := Z.of_nat (List.length fp) in
  match ip ++ fp with
  | [] => None
  | _ :: _ =>
      match r2 with
      | [] => Some (decimal m (- shift))
      | c :: r =>
          if lower c =? 0x65
          then let (neg, r') := take_sign r in
               let (ep, r3) := span_digits r' in
               match ep, r3 with
               | _ :: _, [] =>
                   let e := Z.of_N (N_of_digits ep) in
                   Some (decimal m ((if neg then - e else e) - shift))
               | _, _ => None
               end
          else None
      end
  end.

Definition parse_unsigned (s : pystr) : option pyfloat :=
  let l := map lower s in
  if str_eqb l (ustr "inf") || str_eqb l (ustr "infinity") then Some PInf
  else if str_eqb l (ustr "nan") then Some FNaN
  else option_map Fin (parse_decimal s).

(** [float(s)] for a string [s]; [None] is ValueError. *)
Definition float_of_str (s : pystr) : option pyfloat :=
  match remove_underscores 0 (strip_with is_c_space (map to_ascii_decimal s)) with
  | None => None
  | Some t =>
      let (neg, r) := take_sign t in
      option_map (fun f => if neg then float_neg f else f) (parse_unsigned r)
  end.

(* ================================================================== *)
(** ** Dictionaries and frames *)

(** Insertion-ordered maps with string keys: [d.get(k)], [d[k] = v] and
    [del d[k]]. *)
Fixpoint assoc_get {V} (k : pystr) (d : list (pystr * V)) : option V :=
  match d with
  | [] => None
  | (k', v) :: d' => if str_eqb k k' then Some v else assoc_get k d'
  end.

Fixpoint assoc_set {V} (k : pystr) (v : V) (d : list (pystr * V))
  : list (pystr * V) :=
  match d with
  | [] => [(k, v)]
  | (k', v') :: d' =>
      if str_eqb k k' then (k, v) :: d' else (k', v') :: assoc_set k v d'
  end.

Fixpoint assoc_del {V} (k : pystr) (d : list (pystr * V)) : list (pystr * V) :=
  match d with
  | [] => []
  | (k', v') :: d' =>
      if str_eqb k k' then assoc_del k d' else (k', v') :: assoc_del k d'
  end.

(** A scraped record: every value is text taken from a page. *)
Definition dict := list (pystr * pystr).

Definition dict_get (k : pystr) (d : dict) : option pystr := assoc_get k d.
Definition dict_set (k v : pystr) (d : dict) : dict := assoc_set k v d.

(** A value of an object column built from scraped records: a string, or
    [None] for the NaN pandas puts where a record has no such key. *)
Definition obj := option pystr.

(** A value of a column of the processed frame. *)
Inductive cell :=
| CStr (s : pystr)
| CFloat (f : pyfloat)
| CInt (z : Z).

Definition cell_of_obj (o : obj) : cell :=
  match o with
  | Some s => CStr s
  | None => CFloat FNaN
  end.

(** A frame: its columns in order, each with one value per row. *)
Definition Frame (A : Type) := list (pystr * list A).

Definition columns {A} (df : Frame A) : list pystr := map fst df.

Definition mem (k : pystr) (l : list pystr) : bool := existsb (str_eqb k) l.

Definition add_key (acc : list pystr) (k : pystr) : list pystr :=
  if mem k acc then acc else acc ++ [k].

(** The keys of all records, in order of first appearance. *)
Definition keys_union (books : list dict) : list pystr :=
  fold_left (fun acc b => fold_left add_key (map fst b) acc) books [].

Definition frame_of (cols : list pystr) (books : list dict) : Frame obj :=
  map (fun c => (c, map (dict_get c) books)) cols.

(** [pd.DataFrame(books)] *)
Definition DataFrame (books : list dict) : Frame obj :=
  frame_of (keys_union books) books.

(** [df[c]] *)
Definition getcol {A} (df : Frame A) (c : pystr) : result (list A) :=
  match assoc_get c df with
  | Some vs => Ok vs
  | None => Raise (KeyError c)
  end.

(** Boolean indexing of one column. *)
Fixpoint mask {A} (m : list bool) (l : list A) : list A :=
  match m, l with
  | b :: m', a :: l' => if b then a :: mask m' l' else mask m' l'
  | _, _ => []
  end.

(** [df[m]] *)
Definition mask_rows {A} (m : list bool) (df : Frame A) : Frame A :=
  map (fun cv => (fst cv, mask m (snd cv))) df.

(** [df[[c1, ..., cn]]]; the KeyError of the model names the first column
    that is missing (pandas names all of them in its message). *)
Definition select {A} (cols : list pystr) (df : Frame A) : result (Frame A) :=
  mapM (fun c => vs <- getcol df c ;; Ok (c, vs)) cols.

(** [df[c] = vs] and [df.drop(columns=[c])] *)
Definition assign {A} (c : pystr) (vs : list A) (df : Frame A) : Frame A :=
  assoc_set c vs df.

Definition drop {A} (c : pystr) (df : Frame A) : Frame A := assoc_del c df.

Definition map_frame {A B} (f : A -> B) (df : Frame A) : Frame B :=
  map (fun cv => (fst cv, map f (snd cv))) df.

(* ================================================================== *)
(** ** process_book_data *)

Definition TARGET_CATEGORIES : list pystr :=
  [ustr "Travel"; ustr "Mystery"; ustr "Historical Fiction"; ustr "Classics"].

Definition CURRENCY : pystr := ustr "Â£".

(** [str(x)] for a value of an object column. *)
Definition str_of_obj (x : obj) : pystr :=
  match x with
  | Some s => s
  | None => ustr "nan"
  end.

(** [Series.isin(targets)] *)
Definition isin (targets : list pystr) (x : obj) : bool :=
  match x with
  | Some s => mem s targets
  | None => false
  end.

(** [df[df['Category'].isin(targets)]] *)
Definition category_filter (targets : list pystr) (df : Frame obj)
  : result (Frame obj) :=
  cat <- getcol df (ustr "Category") ;;
  Ok (mask_rows (map (isin targets) cat) df).

(** [.astype(float)] on a column of strings: one bad string fails the
    whole conversion. *)
Definition astype_float (l : list pystr) : result (list pyfloat) :=
  mapM (fun s => match float_of_str s with
                 | Some f => Ok f
                 | None => Raise (ValueError s)
                 end) l.

(** [.astype(str).str.replace('Â£', '', regex=False)] on one value. *)
Definition price_text (x : obj) : pystr := replace CURRENCY [] (str_of_obj x).

Definition availability_status (x : obj) : pystr :=
  if contains (ustr "In stock") (str_of_obj x)
  then ustr "In stock" else ustr "Out of stock".

Definition availability_count (x : obj) : Z :=
  match re_search_digits (str_of_obj x) with
  | Some ds => int_of_digits ds
  | None => 0%Z
  end.

Definition description_length (x : obj) : Z :=
  match x with
  | Some s => Z.of_nat (List.length (split s))
  | None => 0%Z
  end.

Definition REQUIRED_COLUMNS : list pystr :=
  [ustr "Title"; ustr "Description"; ustr "Category"; ustr "Price";
   ustr "Rating"; ustr "Availability"].

Definition process_book_data (books : list dict) : result (Frame cell) :=
  let df := DataFrame books in
  df <- category_filter TARGET_CATEGORIES df ;;
  df <- select REQUIRED_COLUMNS df ;;
  raw_price <- getcol df (ustr "Price") ;;
  price <- astype_float (map price_text raw_price) ;;
  let out := assign (ustr "Price") (map CFloat price)
                    (map_frame cell_of_obj df) in
  avail <- getcol df (ustr "Availability") ;;
  let out := assign (ustr "Availability Status")
                    (map (fun x => CStr (availability_status x)) avail) out in
  let out := assign (ustr "Availability_Count")
                    (map (fun x => CInt (availability_count x)) avail) out in
  desc <- getcol df (ustr "Description") ;;
  let out := assign (ustr "Description Length")
                    (map (fun x => CInt (description_length x)) desc) out in
  Ok (drop (ustr "Availability") out).

Definition mk_book (title desc cat price rating avail : String.string) : dict :=
  [ (ustr "Description", ustr desc); (ustr "Category", ustr cat);
    (ustr "Availability", ustr avail); (ustr "Title", ustr title);
    (ustr "Price", ustr price); (ustr "Rating", ustr rating);
    (ustr "Product Link", ustr "https://books.toscrape.com/catalogue/x.html") ].

Arguments mk_book (title desc cat price rating avail)%_string.

(* ================================================================== *)
(** ** The site, as the crawler sees it *)

(** What [BeautifulSoup] finds on a detail page.  Texts are the results of
    [get_text(strip=True)]. *)
Record detail_page := {
  (** [soup.find("div", id="product_description")], and inside it the text
      of [find_next_sibling("p")], if there is such a sibling *)
  description_tag : option (option pystr);
  (** [soup.find("ul", class_="breadcrumb")] with the texts of its [li] *)
  breadcrumb : option (list pystr);
  (** [soup.find("table", ...)] with, for each [tr], the texts of its [th]
      and [td], each if present *)
  table : option (list (option pystr * option pystr))
}.

(** One [article.product_pod] of a listing page; [None] where the access
    the crawler makes would raise. *)
Record article := {
  href : option pystr;          (* article.h3.a["href"] *)
  title : option pystr;         (* article.h3.a["title"] *)
  price_color : option pystr;   (* article.find("p", class_="price_color").text *)
  p_class : option (list pystr) (* article.p["class"] *)
}.

(** The outcome of [requests.get]. *)
Inductive response (A : Type) :=
| ConnectionError
| Response (status_code : N) (content : A).

Arguments ConnectionError {A}.
Arguments Response {A} status_code content.

Record site := {
  get_detail : pystr -> response detail_page;   (* by URL *)
  get_listing : N -> response (list article)    (* by page number *)
}.

(** What the crawler prints. *)
Inductive event :=
| ErrDetails (url : pystr)   (* "Error scraping book details from ..." *)
| ErrArticle                 (* "Error processing article: ..." *)
| ScrapedPage (page : N)     (* "Scraped page ..." *)
| ErrPage (page : N).        (* "Error scraping page ..." *)

Definition BASE_SITE : pystr := ustr "https://books.toscrape.com/catalogue/".

Definition NO_DESCRIPTION : pystr := ustr "No description available".

(* ================================================================== *)
(** ** get_book_details *)

(** The description expression; [None] when it raises (marker present but
    no following paragraph). *)
Definition description_of (p : detail_page) : option pystr :=
  match description_tag p with
  | Some (Some text) => Some text
  | Some None => None
  | None => Some NO_DESCRIPTION
  end.

Definition category_of (p : detail_page) : pystr :=
  match breadcrumb p with
  | Some items =>
      if (2 <? List.length items)%nat then nth 2 items [] else ustr "Unknown"
  | None => ustr "Unknown"
  end.

(** The loop over the table rows; [None] when a row lacks its [th] or
    [td]. *)
Fixpoint add_rows (rows : list (option pystr * option pystr)) (d : dict)
  : option dict :=
  match rows with
  | [] => Some d
  | (Some key, Some value) :: rest => add_rows rest (dict_set key value d)
  | _ :: _ => None
  end.

(** The body of the [try]; [None] when it raises. *)
Definition parse_details (p : detail_page) : option dict :=
  match description_of p with
  | None => None
  | Some description =>
      let book_data := dict_set (ustr "Description") description [] in
      let book_data := dict_set (ustr "Category") (category_of p) book_data in
      match table p with
      | Some rows => add_rows rows book_data
      | None => Some book_data
      end
  end.

(** [response.raise_for_status()] raises on 4xx and 5xx. *)
Definition is_http_error (status : N) : bool :=
  (400 <=? status) && (status <? 600).

(** [requests.get], [raise_for_status] and the parse; [None] when any of
    them raises. *)
Definition try_book_details (s : site) (book_url : pystr) : option dict :=
  match get_detail s book_url with
  | ConnectionError => None
  | Response status page =>
      if is_http_error status then None else parse_details page
  end.

(** The function: the [except] clause prints and returns the empty dict. *)
Definition get_book_details (s : site) (book_url : pystr)
  : dict * list event :=
  match try_book_details s book_url with
  | Some book_data => (book_data, [])
  | None => ([], [ErrDetails book_url])
  end.

(* ================================================================== *)
(** ** scrape_books *)

(** [article.p["class"][1]]; [None] when it raises. *)
Definition rating_of (a : article) : option pystr :=
  match p_class a with
  | Some cls => nth_error cls 1
  | None => None
  end.

(** The body of the inner [try] for one article: the record to append, or
    [None] when an access to the article raises; with what is printed. *)
Definition process_article (s : site) (a : article)
  : option dict * list event :=
  match href a with
  | None => (None, [ErrArticle])
  | Some h =>
      let product_link := BASE_SITE ++ h in
      let (book_data, log) := get_book_details s product_link in
      match title a with
      | None => (None, log ++ [ErrArticle])
      | Some t =>
          let book_data := dict_set (ustr "Title") t book_data in
          match price_color a with
          | None => (None, log ++ [ErrArticle])
          | Some p =>
              let book_data := dict_set (ustr "Price") (strip p) book_data in
              match rating_of a with
              | None => (None, log ++ [ErrArticle])
              | Some r =>
                  let book_data := dict_set (ustr "Rating") r book_data in
                  let book_data :=
                    dict_set (ustr "Product Link") product_link book_data in
                  (Some book_data, log)
              end
          end
      end
  end.

(** The [for] loop over the articles of one page. *)
Fixpoint scrape_articles (s : site) (articles : list article)
  (books : list dict) (log : list event) : list dict * list event :=
  match articles with
  | [] => (books, log)
  | a :: rest =>
      match process_article s a with
      | (Some book_data, l) =>
          scrape_articles s rest (books ++ [book_data]) (log ++ l)
      | (None, l) => scrape_articles s rest books (log ++ l)
      end
  end.

(** The [while True] loop, from page [page] on.  The site decides whether
    it ends, so the loop runs on fuel: [None] when the fuel is used up
    before a page stops the crawl. *)
Fixpoint scrape_pages (fuel : nat) (s : site) (page : N)
  (books : list dict) (log : list event) : option (list dict * list event) :=
  match fuel with
  | O => None
  | S fuel' =>
      match get_listing s page with
      | ConnectionError => Some (books, log ++ [ErrPage page])
      | Response status articles =>
          if negb (status =? 200) then Some (books, log)
          else match articles with
               | [] => Some (books, log)
               | _ :: _ =>
                   let (books', log') :=
                     scrape_articles s articles books log in
                   scrape_pages fuel' s (page + 1) books'
                                (log' ++ [ScrapedPage page])
               end
      end
  end.

Definition scrape_books (fuel : nat) (s : site)
  : option (list dict * list event) :=
  scrape_pages fuel s 1 [] [].

(* ================================================================== *)
(** ** The processed dataset, row by row, and pandas reductions *)

(** One row of a frame with the processed columns (as process_book_data
    returns it, or as read back from the saved file), with the type each
    column has. *)
Record book := {
  Title : obj;
  Description : obj;
  Category : pystr;
  Price : pyfloat;
  Rating : obj;
  Availability_Status : pystr;
  Availability_Count : Z;
  Description_Length : Z
}.


(** [Series.unique()]: first occurrences, in order. *)
Definition unique (l : list pystr) : list pystr := fold_left add_key l [].

(** String order, by code points. *)
Fixpoint str_leb (a b : pystr) : bool :=
  match a, b with
  | [], _ => true
  | _ :: _, [] => false
  | x :: a', y :: b' => (x <? y) || ((x =? y) && str_leb a' b')
  end.

Fixpoint insert_sorted (k : pystr) (l : list pystr) : list pystr :=
  match l with
  | [] => [k]
  | k' :: l' => if str_leb k k' then k :: l else k' :: insert_sorted k l'
  end.

Definition sort_keys (l : list pystr) : list pystr :=
  fold_right insert_sorted [] l.

(** Arithmetic of floats, as far as the reductions need it. *)
Definition float_add (a b : pyfloat) : pyfloat :=
  match a, b with
  | FNaN, _ | _, FNaN => FNaN
  | PInf, NInf | NInf, PInf => FNaN
  | PInf, _ | _, PInf => PInf
  | NInf, _ | _, NInf => NInf
  | Fin x, Fin y => Fin (x + y)
  end.

Definition float_div_count (a : pyfloat) (n : nat) : pyfloat :=
  match n, a with
  | O, _ => FNaN
  | _, Fin x => Fin (x / inject_Z (Z.of_nat n))
  | _, other => other
  end.

Definition float_leb (a b : pyfloat) : bool :=
  match a, b with
  | FNaN, _ | _, FNaN => false
  | NInf, _ | _, PInf => true
  | _, NInf | PInf, _ => false
  | Fin x, Fin y => Qle_bool x y
  end.

Definition is_nan (f : pyfloat) : bool :=
  match f with FNaN => true | _ => false end.

(** The reductions skip nan. *)
Definition dropna (l : list pyfloat) : list pyfloat :=
  filter (fun f => negb (is_nan f)) l.

Definition agg_sum (l : list pyfloat) : pyfloat :=
  fold_left float_add (dropna l) (Fin 0).

Definition agg_mean (l : list pyfloat) : pyfloat :=
  float_div_count (agg_sum l) (List.length (dropna l)).

Definition agg_min (l : list pyfloat) : pyfloat :=
  match dropna l with
  | [] => FNaN
  | x :: rest => fold_left (fun m y => if float_leb y m then y else m) rest x
  end.

Definition agg_max (l : list pyfloat) : pyfloat :=
  match dropna l with
  | [] => FNaN
  | x :: rest => fold_left (fun m y => if float_leb m y then y else m) rest x
  end.

(** Rounding to the nearest integer, ties to even. *)
Definition round_half_even (q : Q) : Z :=
  let f := Qfloor q in
  let r := (q - inject_Z f)%Q in
  match (r ?= 1 # 2)%Q with
  | Lt => f
  | Gt => (f + 1)%Z
  | Eq => if Z.even f then f else (f + 1)%Z
  end.

(** [.round(2)] *)
Definition round2 (f : pyfloat) : pyfloat :=
  match f with
  | Fin q => Fin (inject_Z (round_half_even (q * 100)) / 100)
  | other => other
  end.

Record group_stats := {
  price_min : pyfloat;
  price_max : pyfloat;
  price_mean : pyfloat;
  price_sum : pyfloat;
  availability_count_sum : Z;
  description_length_mean : pyfloat
}.

Definition in_category (c : pystr) (b : book) : bool := str_eqb (Category b) c.

Definition sum_Z (l : list Z) : Z := fold_left Z.add l 0%Z.

Definition stats_of (rows : list book) : group_stats :=
  let prices := map Price rows in
  {| price_min := round2 (agg_min prices);
     price_max := round2 (agg_max prices);
     price_mean := round2 (agg_mean prices);
     price_sum := round2 (agg_sum prices);
     availability_count_sum := sum_Z (map Availability_Count rows);
     description_length_mean :=
       round2 (float_div_count
                 (Fin (inject_Z (sum_Z (map Description_Length rows))))
                 (List.length rows)) |}.

(** [df.groupby('Category')]: the categories present, sorted. *)
Definition group_keys (df : list book) : list pystr :=
  sort_keys (unique (map Category df)).

(** [df.groupby('Category').agg({...}).round(2)] *)
Definition df_grouped (df : list book) : list (pystr * group_stats) :=
  map (fun c => (c, stats_of (filter (in_category c) df))) (group_keys df).

(** [.loc[label, ...]] on the grouped statistics. *)
Definition loc (g : list (pystr * group_stats)) (label : pystr)
  : result group_stats :=
  match assoc_get label g with
  | Some st => Ok st
  | None => Raise (KeyError label)
  end.

(** [.groupby('Category').size()] *)
Definition group_sizes (df : list book) : list (pystr * nat) :=
  map (fun c => (c, List.length (filter (in_category c) df))) (group_keys df).

(* ================================================================== *)
(** ** The analysis functions

    Each result is the mapping the function returns, as a record; the
    justification texts, which only format the figures for display, are
    left out. *)


(** [(part / total) * 100 if total > 0 else 0] *)
Definition percentage_of (part total : nat) : Q :=
  if (0 <? total)%nat
  then (inject_Z (Z.of_nat part) / inject_Z (Z.of_nat total) * 100)%Q
  else 0%Q.

(** [percentage > 50] *)
Definition above_half (percentage : Q) : bool := negb (Qle_bool percentage 50).






Record numerical_results := {
  average_prices : list (pystr * pyfloat);
  historical_fiction_price_range : pyfloat * pyfloat;
  in_stock_counts : list (pystr * nat);
  travel_total_value : pyfloat
}.

Definition analyze_numerical_questions (df : list book)
  : result numerical_results :=
  let grouped := df_grouped df in
  let avg_prices := map (fun cs => (fst cs, price_mean (snd cs))) grouped in
  hist_fiction <- loc grouped (ustr "Historical Fiction") ;;
  let in_stock :=
    group_sizes
      (filter (fun b => str_eqb (Availability_Status b) (ustr "In stock")) df) in
  travel <- loc grouped (ustr "Travel") ;;
  Ok {| average_prices := avg_prices;
        historical_fiction_price_range :=
          (price_min hist_fiction, price_max hist_fiction);
        in_stock_counts := in_stock;
        travel_total_value := price_sum travel |}.

(** The second question of analyze_hybrid_questions: the categories with
    more than half of their books above 30. *)
Record above_30_entry := {
  e_category : pystr;
  e_percentage : Q;
  e_count : nat;
  e_total : nat
}.

Definition above_30_entry_of (df : list book) (category : pystr)
  : above_30_entry :=
  let category_df := filter (in_category category) df in
  let total_books := List.length category_df in
  let books_above_30 :=
    List.length (filter (fun b => float_gt (Price b) 30) category_df) in
  {| e_category := category;
     e_percentage := percentage_of books_above_30 total_books;
     e_count := books_above_30;
     e_total := total_books |}.

Definition categories_above_30_percent (df : list book)
  : list above_30_entry :=
  filter (fun e => above_half (e_percentage e))
         (map (above_30_entry_of df) (unique (map Category df))).

Definition book_in (category : String.string) (price : Q) : book :=
  {| Title := Some (ustr "t"); Description := Some (ustr "d");
     Category := ustr category; Price := Fin price; Rating := Some (ustr "One");
     Availability_Status := ustr "In stock"; Availability_Count := 1;
     Description_Length := 1 |}.

Arguments book_in category%_string price%_Q.

(* ================================================================== *)
(** ** The rules as the specification words them

    Two rules of the specification are worded more narrowly than the code:
    they are written down here as the specification states them, to be
    compared with [price_text] and [availability_count]. *)






(* ================================================================== *)
(** ** The processed frame, row by row *)

(** The records that pass the category filter. *)
Definition has_category_in (targets : list pystr) (b : dict) : bool :=
  isin targets (dict_get (ustr "Category") b).

Definition kept_books (books : list dict) : list dict :=
  filter (has_category_in TARGET_CATEGORIES) books.

Definition raw_column (c : String.string) (kept : list dict) : list obj :=
  map (dict_get (ustr c)) kept.

Arguments raw_column c%_string kept.

(** The frame process_book_data returns for the kept records, given their
    parsed prices. *)
Definition normalized_frame (kept : list dict) (prices : list pyfloat)
  : Frame cell :=
  [ (ustr "Title", map cell_of_obj (raw_column "Title" kept));
    (ustr "Description", map cell_of_obj (raw_column "Description" kept));
    (ustr "Category", map cell_of_obj (raw_column "Category" kept));
    (ustr "Price", map CFloat prices);
    (ustr "Rating", map cell_of_obj (raw_column "Rating" kept));
    (ustr "Availability Status",
      map (fun x => CStr (availability_status x)) (raw_column "Availability" kept));
    (ustr "Availability_Count",
      map (fun x => CInt (availability_count x)) (raw_column "Availability" kept));
    (ustr "Description Length",
      map (fun x => CInt (description_length x)) (raw_column "Description" kept)) ].

(** The first of the wanted columns the frame of [books] lacks. *)
Definition first_missing (books : list dict) (cols : list pystr)
  : option pystr :=
  find (fun c => negb (mem c (keys_union books))) cols.

(* ================================================================== *)
(** ** Predicates used in the statements *)







(** The record of an item whose detail page gave nothing: the four
    listing-page fields. *)
Definition listing_record (product_link t p r : pystr) : dict :=
  [ (ustr "Title", t); (ustr "Price", strip p); (ustr "Rating", r);
    (ustr "Product Link", product_link) ].

(** The keys scrape_books writes from the listing page. *)
Definition LISTING_KEYS : list pystr :=
  [ustr "Title"; ustr "Price"; ustr "Rating"; ustr "Product Link"].

(** The listing page [page] ends the crawl. *)
Definition stops (s : site) (page : N) : bool :=
  match get_listing s page with
  | Response status (_ :: _) => negb (status =? 200)
  | _ => true
  end.

(* ================================================================== *)
(** ** The percentage in binary64

    The same two expressions on the machine floats the interpreter uses,
    to compare with the exact model. *)

Definition float_of_nat (n : nat) : PrimFloat.float :=
  PrimFloat.of_uint63 (Uint63.of_Z (Z.of_nat n)).

(** [(part / total) * 100 if total > 0 else 0] *)
Definition percentage_binary64 (part total : nat) : PrimFloat.float :=
  if (0 <? total)%nat
  then PrimFloat.mul (PrimFloat.div (float_of_nat part) (float_of_nat total))
                     (float_of_nat 100)
  else PrimFloat.zero.

(** [percentage > 50] *)
Definition above_half_binary64 (percentage : PrimFloat.float) : bool :=
  PrimFloat.ltb (float_of_nat 50) percentage.

(** The two models give the same answer for every [part <= total <= bound]. *)
Definition models_agree_upto (bound : nat) : bool :=
  forallb (fun total =>
             forallb (fun part =>
                        Bool.eqb (above_half_binary64 (percentage_binary64 part total))
                                 (above_half (percentage_of part total)))
                     (seq 0 (S total)))
          (seq 0 (S bound)).

(* ================================================================== *)
(** ** Sample data *)


Definition sample_books : list dict :=
  [ mk_book "A" "a fine book" "Travel" "Â£51.77" "Three" "In stock (19 available)";
    mk_book "B" "other" "Poetry" "Â£10.00" "One" "In stock (1 available)";
    mk_book "C" "" "Mystery" "Â£7.50" "Five" "Out of print" ].

Definition sample_frame : Frame cell :=
  [ (ustr "Title", [CStr (ustr "A"); CStr (ustr "C")]);
    (ustr "Description", [CStr (ustr "a fine book"); CStr []]);
    (ustr "Category", [CStr (ustr "Travel"); CStr (ustr "Mystery")]);
    (ustr "Price", [CFloat (Fin (5177 # 100)); CFloat (Fin (750 # 100))]);
    (ustr "Rating", [CStr (ustr "Three"); CStr (ustr "Five")]);
    (ustr "Availability Status",
      [CStr (ustr "In stock"); CStr (ustr "Out of stock")]);
    (ustr "Availability_Count", [CInt 19; CInt 0]);
    (ustr "Description Length", [CInt 3; CInt 0]) ].

Definition sample_article : article :=
  {| href := Some (ustr "a-light-in-the-attic_1000/index.html");
     title := Some (ustr "A Light in the Attic");
     price_color := Some (ustr " Â£51.77 ");
     p_class := Some [ustr "star-rating"; ustr "Three"] |}.

Definition sample_link : pystr :=
  ustr "https://books.toscrape.com/catalogue/a-light-in-the-attic_1000/index.html".

(** A site with one listing page of one item, whose detail page cannot be
    fetched. *)
Definition detail_down_site : site :=
  {| get_detail := fun _ => ConnectionError;
     get_listing := fun page =>
       if page =? 1 then Response 200 [sample_article] else Response 404 [] |}.

(** A detail page whose attribute table has rows labelled like the
    listing fields. *)
Definition colliding_page : detail_page :=
  {| description_tag := None;
     breadcrumb := Some [ustr "Home"; ustr "Books"; ustr "Poetry"; ustr "A Light"];
     table := Some [ (Some (ustr "UPC"), Some (ustr "a897fe39b1053632"));
                     (Some (ustr "Title"), Some (ustr "from the table"));
                     (Some (ustr "Price"), Some (ustr "Â£0.00"));
                     (Some (ustr "Availability"),
                      Some (ustr "In stock (22 available)")) ] |}.

Definition colliding_site : site :=
  {| get_detail := fun _ => Response 200 colliding_page;
     get_listing := fun page =>
       if page =? 1 then Response 200 [sample_article] else Response 404 [] |}.

(* ================================================================== *)
(** ** The crawl, page by page *)

(** Every row of the attribute table has its [th] and its [td]. *)
Definition well_formed_rows (rows : list (option pystr * option pystr)) : bool :=
  forallb (fun row => match row with
                      | (Some _, Some _) => true
                      | _ => false
                      end) rows.

(** The value of the last table row labelled [k], if there is one. *)
Fixpoint last_value (k : pystr) (rows : list (option pystr * option pystr))
  : option pystr :=
  match rows with
  | [] => None
  | (Some key, Some value) :: rest =>
      match last_value k rest with
      | Some v => Some v
      | None => if str_eqb k key then Some value else None
      end
  | _ :: rest => last_value k rest
  end.

Definition table_rows (p : detail_page) : list (option pystr * option pystr) :=
  match table p with
  | Some rows => rows
  | None => []
  end.

(** The record an article contributes to the crawl, if any. *)
Definition article_record (s : site) (a : article) : list dict :=
  match fst (process_article s a) with
  | Some rec => [rec]
  | None => []
  end.

(** The records of the listing page [page], in the order of its articles. *)
Definition page_records (s : site) (page : N) : list dict :=
  match get_listing s page with
  | Response _ articles => flat_map (article_record s) articles
  | ConnectionError => []
  end.

(** The [n] page numbers from [page] on. *)
Definition pages_from (page : N) (n : nat) : list N :=
  map (fun i => page + N.of_nat i) (seq 0 n).

(** What holds of every record the crawler makes. *)
Definition crawled_record (rec : dict) : Prop :=
  NoDup (map fst rec)
  /\ dict_get (ustr "Title") rec <> None
  /\ dict_get (ustr "Rating") rec <> None
  /\ (exists p, dict_get (ustr "Price") rec = Some p /\ strip p = p)
  /\ (exists h, dict_get (ustr "Product Link") rec = Some (BASE_SITE ++ h)).

(* ================================================================== *)
(** ** scrape_and_save_data *)

(** What the function returns, and the frame it hands to [to_csv] when it
    writes the file. *)
Record saved_data := {
  returned : Frame cell;
  written : option (Frame cell)
}.

(** The progress messages the function prints are left out.  Without
    books it returns [pd.DataFrame()], the frame without columns, and
    writes nothing. *)
Definition scrape_and_save_data (fuel : nat) (s : site)
  : option (result saved_data) :=
  match scrape_books fuel s with
  | None => None
  | Some (books, _) =>
      match books with
      | [] => Some (Ok {| returned := []; written := None |})
      | _ :: _ =>
          Some (df <- process_book_data books ;;
                Ok {| returned := df; written := Some df |})
      end
  end.




(* ================================================================== *)
(** ** Order of the categories and the out-of-stock question *)

(** [a <= b] in the order of strings. *)
Definition str_le (a b : pystr) : Prop := str_leb a b = true.








(* ================================================================== *)
(** * Checks on concrete inputs *)

Example ustr_pound : ustr "Â£" = [0xC2; 0xA3].
Proof. reflexivity. Qed.

Example split_sentinel :
  split (ustr "No description available")
  = [ustr "No"; ustr "description"; ustr "available"].
Proof. reflexivity. Qed.

Example replace_twice : replace (ustr "Â£") [] (ustr "ÂÂ££5Â£1") = ustr "Â£51".
Proof. reflexivity. Qed.

Example search_arabic :
  option_map int_of_digits (re_search_digits (ustr "a٣1 b 19")) = Some 31%Z.
Proof. reflexivity. Qed.

Example float_of_str_accepts :
  map (fun s => float_of_str (ustr s))
      ["51.77"; "-1.00"; " 5 "; "1_0.5"; "٣"; "1E-2"; ".5"; "5."; "iNf";
       "-Infinity"; "+nan"; "１２"; "1.5e1_0"]%string
  = map Some
      [Fin (5177 # 100); Fin (- (100 # 100)); Fin (5 # 1); Fin (105 # 10);
       Fin (3 # 1); Fin (1 # 100); Fin (5 # 10); Fin (5 # 1); PInf;
       NInf; FNaN; Fin (12 # 1); Fin (15 * 10 ^ 9 # 1)].
Proof. reflexivity. Qed.

Example float_of_str_rejects :
  map (fun s => float_of_str (ustr s))
      ["1__0"; "_1"; "1_"; "1e3x"; "."; "e5"; "1 2"; ""; "+"; "1e"; "1e+"; "0x10";
       "1._5"; "1_.5"; "infi"; "+-1"; "--1"; "1e5.0"; "Â£51.77"; "51.77Â£"]%string
  = repeat None 20.
Proof. reflexivity. Qed.

Example float_of_str_control_space :
  float_of_str [0x1C; 0x31] = None /\ float_of_str [0x33; 0x85] = Some (Fin (3 # 1)).
Proof. split; reflexivity. Qed.

Example process_two_books :
  process_book_data
    [ mk_book "A" "a fine book" "Travel" "Â£51.77" "Three" "In stock (19 available)";
      mk_book "B" "other" "Poetry" "Â£10.00" "One" "In stock (1 available)" ]
  = Ok [ (ustr "Title", [CStr (ustr "A")]);
         (ustr "Description", [CStr (ustr "a fine book")]);
         (ustr "Category", [CStr (ustr "Travel")]);
         (ustr "Price", [CFloat (Fin (5177 # 100))]);
         (ustr "Rating", [CStr (ustr "Three")]);
         (ustr "Availability Status", [CStr (ustr "In stock")]);
         (ustr "Availability_Count", [CInt 19]);
         (ustr "Description Length", [CInt 3]) ].
Proof. reflexivity. Qed.

Example process_no_books :
  process_book_data [] = Raise (KeyError (ustr "Category")).
Proof. reflexivity. Qed.

Example travel_only_raises :
  analyze_numerical_questions [book_in "Travel" 45; book_in "Travel" 12]
  = Raise (KeyError (ustr "Historical Fiction")).
Proof. reflexivity. Qed.

Example travel_total :
  option_map price_sum
    (assoc_get (ustr "Travel") (df_grouped [book_in "Travel" 45; book_in "Travel" 12]))
  = Some (Fin (5700 # 100)).
Proof. reflexivity. Qed.

Example two_of_three_above_30 :
  map (fun e => (e_category e, e_count e, e_total e))
      (categories_above_30_percent
         [book_in "Classics" 31; book_in "Classics" 29; book_in "Classics" 40;
          book_in "Mystery" 10])
  = [(ustr "Classics", 2%nat, 3%nat)].
Proof. reflexivity. Qed.

(* ================================================================== *)
(** * Strings *)

Lemma str_eqb_eq (a b : pystr) : str_eqb a b = true <-> a = b.
Proof.
  unfold str_eqb. destruct (list_eq_dec N.eq_dec a b); split; congruence.
Qed.

Lemma str_eqb_refl (a : pystr) : str_eqb a a = true.
Proof. now apply str_eqb_eq. Qed.

Lemma str_eqb_neq (a b : pystr) : str_eqb a b = false <-> a <> b.
Proof.
  unfold str_eqb. destruct (list_eq_dec N.eq_dec a b); split; congruence.
Qed.




(* ================================================================== *)
(** * The first run of digits *)







(** The value of a run of digits is positional, base ten. *)
Lemma int_of_digits_snoc (ds : pystr) (c : char) :
  int_of_digits (ds ++ [c])
  = (10 * int_of_digits ds + Z.of_N (digit_or_zero c))%Z.
Proof.
  unfold int_of_digits. rewrite fold_left_app. cbn [fold_left].
  rewrite N2Z.inj_add, N2Z.inj_mul. lia.
Qed.

Lemma int_of_digits_nonneg (ds : pystr) : (0 <= int_of_digits ds)%Z.
Proof. unfold int_of_digits. lia. Qed.

(* ================================================================== *)
(** * Availability (C3) *)




(* ================================================================== *)
(** * Dictionaries and frames *)

Lemma assoc_get_set_eq {V} (k : pystr) (v : V) d :
  assoc_get k (assoc_set k v d) = Some v.
Proof.
  induction d as [|[k' v'] d IH]; simpl.
  - now rewrite str_eqb_refl.
  - destruct (str_eqb k k') eqn:E; simpl.
    + now rewrite str_eqb_refl.
    + now rewrite E.
Qed.

Lemma assoc_get_set_neq {V} (k k' : pystr) (v : V) d :
  k <> k' -> assoc_get k (assoc_set k' v d) = assoc_get k d.
Proof.
  intros Hne. induction d as [|[k2 v2] d IH]; simpl.
  - apply str_eqb_neq in Hne. now rewrite Hne.
  - destruct (str_eqb k' k2) eqn:E; simpl.
    + apply str_eqb_eq in E. subst k2.
      apply str_eqb_neq in Hne. now rewrite Hne.
    + now rewrite IH.
Qed.

Lemma mask_map {A B} (p : A -> bool) (f : A -> B) (l : list A) :
  mask (map p l) (map f l) = map f (filter p l).
Proof.
  induction l as [|a l IH]; simpl; [reflexivity|].
  destruct (p a); simpl; now rewrite IH.
Qed.

Lemma assoc_get_frame_of (cols : list pystr) (books : list dict) (c : pystr) :
  assoc_get c (frame_of cols books)
  = if mem c cols then Some (map (dict_get c) books) else None.
Proof.
  induction cols as [|k cols IH]; simpl; [reflexivity|].
  destruct (str_eqb c k) eqn:E; simpl.
  - apply str_eqb_eq in E. now subst.
  - exact IH.
Qed.

Lemma mask_rows_frame_of (p : dict -> bool) (cols : list pystr) (books : list dict) :
  mask_rows (map p books) (frame_of cols books) = frame_of cols (filter p books).
Proof.
  unfold mask_rows, frame_of. rewrite map_map. apply map_ext.
  intros c. simpl. now rewrite mask_map.
Qed.

Lemma category_filter_frame_of (targets cols : list pystr) (books : list dict) :
  category_filter targets (frame_of cols books)
  = if mem (ustr "Category") cols
    then Ok (frame_of cols (filter (has_category_in targets) books))
    else Raise (KeyError (ustr "Category")).
Proof.
  unfold category_filter, getcol. rewrite assoc_get_frame_of.
  destruct (mem (ustr "Category") cols); [|reflexivity].
  unfold bind. rewrite map_map.
  now rewrite (mask_rows_frame_of (has_category_in targets)).
Qed.

Lemma select_frame_of (wanted cols : list pystr) (books : list dict) :
  select wanted (frame_of cols books)
  = match find (fun c => negb (mem c cols)) wanted with
    | Some c => Raise (KeyError c)
    | None => Ok (frame_of wanted books)
    end.
Proof.
  unfold select. induction wanted as [|c wanted IH]; simpl; [reflexivity|].
  unfold getcol at 1. rewrite assoc_get_frame_of.
  destruct (mem c cols); simpl; [|reflexivity].
  rewrite IH. now destruct (find _ wanted).
Qed.

(* ================================================================== *)
(** * process_book_data, row by row *)

(** What the function does on every input: it raises KeyError when the
    frame of the records lacks the Category column or one of the wanted
    columns, ValueError when a kept price does not parse, and otherwise
    returns [normalized_frame] of the kept records. *)
Lemma process_book_data_unfold (books : list dict) :
  process_book_data books
  = if mem (ustr "Category") (keys_union books)
    then match first_missing books REQUIRED_COLUMNS with
         | Some c => Raise (KeyError c)
         | None =>
             prices <- astype_float
                         (map price_text (raw_column "Price" (kept_books books))) ;;
             Ok (normalized_frame (kept_books books) prices)
         end
    else Raise (KeyError (ustr "Category")).
Proof.
  unfold process_book_data, DataFrame.
  rewrite category_filter_frame_of.
  destruct (mem (ustr "Category") (keys_union books)); [|reflexivity].
  cbn [bind]. rewrite select_frame_of. fold (kept_books books).
  unfold first_missing.
  destruct (find _ REQUIRED_COLUMNS); [reflexivity|].
  cbn [bind].
  change (getcol (frame_of REQUIRED_COLUMNS (kept_books books)) (ustr "Price"))
    with (Ok (raw_column "Price" (kept_books books))).
  cbn [bind].
  destruct (astype_float _) as [prices|e]; reflexivity.
Qed.

Lemma process_book_data_ok (books : list dict) (df : Frame cell) :
  process_book_data books = Ok df ->
  exists prices,
    astype_float (map price_text (raw_column "Price" (kept_books books)))
    = Ok prices
    /\ df = normalized_frame (kept_books books) prices.
Proof.
  rewrite process_book_data_unfold.
  destruct (mem _ _); [|discriminate].
  destruct (first_missing _ _); [discriminate|].
  destruct (astype_float _) as [prices|e]; [|discriminate].
  intros [= <-]. now exists prices.
Qed.

Lemma astype_float_ok (l : list pystr) (fs : list pyfloat) :
  astype_float l = Ok fs ->
  Forall2 (fun s f => float_of_str s = Some f) l fs.
Proof.
  revert fs. unfold astype_float.
  induction l as [|s l IH]; simpl; intros fs.
  - intros [= <-]. constructor.
  - destruct (float_of_str s) as [f|] eqn:E; [|discriminate].
    cbn [bind]. destruct (mapM _ l) as [fs'|e]; [|discriminate].
    cbn [bind]. intros [= <-]. constructor; [exact E | now apply IH].
Qed.



(* ================================================================== *)
(** * The category filter (C9) *)

Lemma mask_all_true {A} (m : list bool) (l : list A) :
  Forall (fun b => b = true) m -> (List.length l <= List.length m)%nat ->
  mask m l = l.
Proof.
  revert l. induction m as [|b m IH]; intros l Hm Hlen.
  - destruct l; [reflexivity | simpl in Hlen; lia].
  - inversion Hm; subst. destruct l as [|a l]; [reflexivity|].
    simpl. f_equal. apply IH; [assumption | simpl in Hlen; lia].
Qed.

Lemma mask_length {A} (m : list bool) (l : list A) :
  (List.length (mask m l) <= List.length (filter (fun b => b) m))%nat.
Proof.
  revert l. induction m as [|b m IH]; intros l; [simpl; lia|].
  destruct l as [|a l]; [simpl; lia|].
  simpl. destruct b; simpl; specialize (IH l); lia.
Qed.

Lemma mask_self (p : obj -> bool) (l : list obj) :
  mask (map p l) l = filter p l.
Proof.
  induction l as [|a l IH]; simpl; [reflexivity|].
  destruct (p a); now rewrite IH.
Qed.

Lemma assoc_get_mask_rows {A} (m : list bool) (df : Frame A) (c : pystr) :
  assoc_get c (mask_rows m df) = option_map (mask m) (assoc_get c df).
Proof.
  induction df as [|[k vs] df IH]; simpl; [reflexivity|].
  destruct (str_eqb c k); [reflexivity | exact IH].
Qed.

Lemma filter_length_map {A} (p : A -> bool) (l : list A) :
  List.length (filter (fun b => b) (map p l)) = List.length (filter p l).
Proof.
  induction l as [|a l IH]; simpl; [reflexivity|].
  destruct (p a); simpl; now rewrite IH.
Qed.

(** C9.  For every target set: filtering the frame of a record collection
    gives the frame, over the same columns, of exactly the records whose
    Category is one of the targets, in their order; a record is kept if
    and only if its Category is a string equal to a target; and filtering
    an already filtered frame (any frame at all) returns it unchanged. *)
Theorem category_filter_idempotent_exact (targets : list pystr) :
  (forall cols books,
      mem (ustr "Category") cols = true ->
      category_filter targets (frame_of cols books)
      = Ok (frame_of cols (filter (has_category_in targets) books)))
  /\ (forall books b,
        In b (filter (has_category_in targets) books)
        <-> In b books
            /\ exists c, dict_get (ustr "Category") b = Some c /\ In c targets)
  /\ (forall df df',
        category_filter targets df = Ok df' ->
        category_filter targets df' = Ok df').
Proof.
  repeat split.
  - intros cols books H. now rewrite category_filter_frame_of, H.
  - apply filter_In in H. tauto.
  - apply filter_In in H as [_ H]. unfold has_category_in, isin in H.
    destruct (dict_get _ b) as [c|]; [|discriminate].
    exists c. split; [reflexivity|].
    unfold mem in H. apply existsb_exists in H as [t [Ht E]].
    apply str_eqb_eq in E. now subst.
  - intros [Hb [c [Hc Hin]]]. apply filter_In. split; [exact Hb|].
    unfold has_category_in, isin. rewrite Hc. unfold mem.
    apply existsb_exists. exists c. split; [exact Hin | apply str_eqb_refl].
  - intros df df'. unfold category_filter, getcol.
    destruct (assoc_get (ustr "Category") df) as [cat|] eqn:Hcat; [|discriminate].
    cbn [bind]. intros [= <-].
    rewrite assoc_get_mask_rows, Hcat. cbn [option_map bind].
    f_equal. unfold mask_rows. rewrite map_map.
    apply map_ext. intros [k vs]. cbn [fst snd]. f_equal.
    apply mask_all_true.
    + rewrite mask_self. apply Forall_forall. intros b Hb.
      apply in_map_iff in Hb as [x [<- Hx]]. apply filter_In in Hx. tauto.
    + rewrite length_map, mask_self.
      rewrite <- (filter_length_map (isin targets) cat). apply mask_length.
Qed.

Lemma category_filter_idempotent_exact_witness :
  let kept := frame_of [ustr "Title"; ustr "Category"]
                       (filter (has_category_in TARGET_CATEGORIES) sample_books) in
  category_filter TARGET_CATEGORIES
                  (frame_of [ustr "Title"; ustr "Category"] sample_books)
  = Ok kept
  /\ category_filter TARGET_CATEGORIES kept = Ok kept.
Proof.
  intros kept.
  assert (H : category_filter TARGET_CATEGORIES
                (frame_of [ustr "Title"; ustr "Category"] sample_books)
              = Ok kept).
  { apply (proj1 (category_filter_idempotent_exact TARGET_CATEGORIES)).
    reflexivity. }
  split; [exact H|].
  exact (proj2 (proj2 (category_filter_idempotent_exact TARGET_CATEGORIES))
           _ kept H).
Defined.

(* ================================================================== *)
(** * The columns of the processed frame (C10) *)


Lemma process_sample_books : process_book_data sample_books = Ok sample_frame.
Proof. reflexivity. Qed.


(* ================================================================== *)
(** * What [float] returns without a minus sign *)

Lemma in_drop_while (p : char -> bool) (s : pystr) (c : char) :
  In c (drop_while p s) -> In c s.
Proof.
  induction s as [|a s IH]; simpl; [tauto|].
  destruct (p a); [intros H; right; now apply IH | tauto].
Qed.

Lemma in_strip_with (p : char -> bool) (s : pystr) (c : char) :
  In c (strip_with p s) -> In c s.
Proof.
  unfold strip_with. intros H.
  apply in_rev, in_drop_while, in_rev, in_drop_while in H. exact H.
Qed.

Lemma in_remove_underscores (s : pystr) :
  forall prev t c, remove_underscores prev s = Some t -> In c t -> In c s.
Proof.
  induction s as [|a s IH]; intros prev t c; simpl.
  - destruct (prev =? 0x5F); [discriminate|]. now intros [= <-].
  - destruct (a =? 0x5F).
    + destruct (is_ascii_digit prev); [|discriminate].
      intros H Hin. right. eapply IH; eassumption.
    + destruct ((prev =? 0x5F) && negb (is_ascii_digit a)); [discriminate|].
      destruct (remove_underscores a s) as [t'|] eqn:E; [|discriminate].
      cbn [option_map]. intros [= <-] [<-|Hin]; [now left|].
      right. eapply IH; eassumption.
Qed.

Lemma take_sign_minus (t r : pystr) :
  take_sign t = (true, r) -> In 0x2D t.
Proof.
  destruct t as [|c t]; simpl; [discriminate|].
  destruct (c =? 0x2D) eqn:E.
  - apply N.eqb_eq in E. now left.
  - destruct (c =? 0x2B); discriminate.
Qed.

Lemma to_ascii_decimal_minus (c : char) :
  to_ascii_decimal c = 0x2D -> c = 0x2D.
Proof.
  unfold to_ascii_decimal.
  destruct (c <? 127); [tauto|].
  destruct (isspace c); [discriminate|].
  destruct (digit_value c) as [d|]; [lia | discriminate].
Qed.

Lemma decimal_nonneg (m : N) (e : Z) : (0 <= decimal m e)%Q.
Proof.
  unfold decimal, Qle. destruct (0 <=? e)%Z eqn:E; cbn [Qnum Qden].
  - apply Z.leb_le in E.
    assert (0 <= 10 ^ e)%Z by (apply Z.pow_nonneg; lia). nia.
  - lia.
Qed.

Lemma parse_decimal_nonneg (s : pystr) (q : Q) :
  parse_decimal s = Some q -> (0 <= q)%Q.
Proof.
  unfold parse_decimal.
  repeat match goal with
         | |- context [let (_, _) := ?x in _] => destruct x
         | |- context [match ?x with _ => _ end] => destruct x
         end;
    try discriminate; intros [= <-]; apply decimal_nonneg.
Qed.

Lemma parse_unsigned_nonneg (s : pystr) (f : pyfloat) :
  parse_unsigned s = Some f -> f = FNaN \/ float_nonneg f.
Proof.
  unfold parse_unsigned.
  destruct (_ || _); [intros [= <-]; right; exact I|].
  destruct (str_eqb _ _); [intros [= <-]; now left|].
  destruct (parse_decimal s) as [q|] eqn:E; [|discriminate].
  intros [= <-]. right. simpl. now apply parse_decimal_nonneg with s.
Qed.

(** A parsed text that holds no minus sign gives nan or a number that is
    not negative. *)
Lemma float_of_str_nonneg (s : pystr) (f : pyfloat) :
  float_of_str s = Some f -> ~ In MINUS_SIGN s -> f = FNaN \/ float_nonneg f.
Proof.
  unfold float_of_str. intros H Hminus.
  destruct (remove_underscores 0 _) as [t|] eqn:Et; [|discriminate].
  destruct (take_sign t) as [neg r] eqn:Es.
  destruct neg.
  - exfalso. apply Hminus.
    apply take_sign_minus in Es.
    apply (in_remove_underscores _ _ _ _ Et) in Es.
    apply in_strip_with, in_map_iff in Es as [c [Hc Hin]].
    apply to_ascii_decimal_minus in Hc. now subst.
  - destruct (parse_unsigned r) as [f'|] eqn:Eu; [|discriminate].
    cbn [option_map] in H. injection H as <-.
    now apply parse_unsigned_nonneg with r.
Qed.

Lemma availability_count_nonneg (x : obj) : (0 <= availability_count x)%Z.
Proof.
  unfold availability_count.
  destruct (re_search_digits _); [apply int_of_digits_nonneg | lia].
Qed.

(* ================================================================== *)
(** * Non-negativity of the processed values (C4) *)

(** C4, as stated, fails for the price: the text "Â£-1.00" parses to -1,
    and the record is kept with that price. *)
Lemma negative_price_is_kept :
  exists df q,
    process_book_data [mk_book "A" "d" "Travel" "Â£-1.00" "One" "In stock"]
    = Ok df
    /\ getcol df (ustr "Price") = Ok [CFloat (Fin q)]
    /\ (q < 0)%Q.
Proof.
  eexists. exists (- (100 # 100))%Q.
  split; [reflexivity|]. split; reflexivity.
Qed.

(** C4, amended.  In every frame process_book_data returns, each
    availability count is an integer that is not negative, and each price
    is the value [float] reads from the price text once the currency symbol
    is removed; that value is nan or not negative whenever this text holds
    no minus sign. *)
Theorem processed_values_non_negative (books : list dict) (df : Frame cell) :
  process_book_data books = Ok df ->
  (exists counts,
      getcol df (ustr "Availability_Count") = Ok (map CInt counts)
      /\ Forall (fun n => (0 <= n)%Z) counts)
  /\ (exists prices,
        getcol df (ustr "Price") = Ok (map CFloat prices)
        /\ Forall2 (fun x f =>
                      float_of_str (price_text x) = Some f
                      /\ (~ In MINUS_SIGN (price_text x) ->
                          f = FNaN \/ float_nonneg f))
                   (raw_column "Price" (kept_books books)) prices).
Proof.
  intros H. apply process_book_data_ok in H as [prices [Hp ->]]. split.
  - exists (map availability_count (raw_column "Availability" (kept_books books))).
    split.
    + rewrite map_map. reflexivity.
    + apply Forall_forall. intros n Hn. apply in_map_iff in Hn as [x [<- _]].
      apply availability_count_nonneg.
  - exists prices. split; [reflexivity|].
    apply astype_float_ok in Hp.
    remember (raw_column "Price" (kept_books books)) as raw eqn:Hraw. clear Hraw.
    revert prices Hp. induction raw as [|x raw IH]; intros prices Hp;
      inversion Hp; subst; constructor.
    + split; [assumption|]. intros Hm. now apply float_of_str_nonneg with (price_text x).
    + now apply IH.
Qed.

Lemma processed_values_non_negative_witness :
  exists counts,
    getcol sample_frame (ustr "Availability_Count") = Ok (map CInt counts)
    /\ Forall (fun n => (0 <= n)%Z) counts.
Proof.
  exact (proj1 (processed_values_non_negative sample_books sample_frame
                  process_sample_books)).
Defined.

(* ================================================================== *)
(** * The price (C2) *)








(* ================================================================== *)
(** * Description: the sentinel and the word count (C8) *)


Lemma dict_get_set_neq (k k' v : pystr) (d : dict) :
  k <> k' -> dict_get k (dict_set k' v d) = dict_get k d.
Proof. apply assoc_get_set_neq. Qed.

Lemma dict_get_set_eq (k v : pystr) (d : dict) :
  dict_get k (dict_set k v d) = Some v.
Proof. apply assoc_get_set_eq. Qed.




(* ================================================================== *)
(** * The merged record (C7) *)

Lemma merged_listing_fields (d : dict) (t p r l : pystr) :
  let m := dict_set (ustr "Product Link") l
             (dict_set (ustr "Rating") r
                (dict_set (ustr "Price") p (dict_set (ustr "Title") t d))) in
  dict_get (ustr "Title") m = Some t
  /\ dict_get (ustr "Price") m = Some p
  /\ dict_get (ustr "Rating") m = Some r
  /\ dict_get (ustr "Product Link") m = Some l
  /\ (forall k, ~ In k LISTING_KEYS -> dict_get k m = dict_get k d).
Proof.
  intros m. subst m.
  assert (Hne : forall a b : pystr, str_eqb a b = false -> a <> b)
    by (intros a b; apply str_eqb_neq).
  repeat split.
  - rewrite !dict_get_set_neq by (apply Hne; reflexivity).
    apply dict_get_set_eq.
  - rewrite !dict_get_set_neq by (apply Hne; reflexivity).
    apply dict_get_set_eq.
  - rewrite dict_get_set_neq by (apply Hne; reflexivity).
    apply dict_get_set_eq.
  - apply dict_get_set_eq.
  - intros k Hk. unfold LISTING_KEYS in Hk. simpl in Hk.
    rewrite !dict_get_set_neq; [reflexivity | | | |]; intros ->; tauto.
Qed.

(** C7.  Whenever the crawler makes a record for an article, the record
    holds under Title, Price, Rating and Product Link the values of the
    listing page (the price text stripped, the second class token of the
    rating paragraph, the absolute link), whatever the detail-page
    attribute map holds under these keys; every other key has the value of
    the detail-page map. *)
Theorem listing_fields_take_precedence
  (s : site) (a : article) (rec : dict) (log : list event) :
  process_article s a = (Some rec, log) ->
  exists h t p r,
    href a = Some h /\ title a = Some t /\ price_color a = Some p
    /\ rating_of a = Some r
    /\ dict_get (ustr "Title") rec = Some t
    /\ dict_get (ustr "Price") rec = Some (strip p)
    /\ dict_get (ustr "Rating") rec = Some r
    /\ dict_get (ustr "Product Link") rec = Some (BASE_SITE ++ h)
    /\ (forall k, ~ In k LISTING_KEYS ->
          dict_get k rec
          = dict_get k (fst (get_book_details s (BASE_SITE ++ h)))).
Proof.
  unfold process_article.
  destruct (href a) as [h|]; [|discriminate].
  destruct (get_book_details s (BASE_SITE ++ h)) as [d l0] eqn:Ed.
  destruct (title a) as [t|]; [|discriminate].
  destruct (price_color a) as [p|]; [|discriminate].
  destruct (rating_of a) as [r|]; [|discriminate].
  intros [= <- <-]. exists h, t, p, r. rewrite Ed. cbn [fst].
  destruct (merged_listing_fields d t (strip p) r (BASE_SITE ++ h))
    as [H1 [H2 [H3 [H4 H5]]]].
  repeat split; try reflexivity; assumption.
Qed.

Lemma listing_fields_take_precedence_witness :
  exists rec,
    process_article colliding_site sample_article = (Some rec, [])
    /\ dict_get (ustr "Title") rec = Some (ustr "A Light in the Attic")
    /\ dict_get (ustr "Price") rec = Some (ustr "Â£51.77")
    /\ dict_get (ustr "UPC") rec = Some (ustr "a897fe39b1053632").
Proof.
  eexists. split; [reflexivity|].
  destruct (listing_fields_take_precedence colliding_site sample_article _ []
              eq_refl)
    as [h [t [p [r [Hh [Ht [Hp [_ [HT [HP _]]]]]]]]]].
  injection Ht as <-. injection Hp as <-.
  split; [exact HT|]. split; [exact HP | reflexivity].
Defined.

(* ================================================================== *)
(** * Items whose detail page fails (C1) *)

Lemma scrape_articles_extends (s : site) (articles : list article) :
  forall books log,
  exists bs ls,
    scrape_articles s articles books log = (books ++ bs, log ++ ls)
    /\ (forall a rec l,
          In a articles -> process_article s a = (Some rec, l) ->
          In rec bs /\ incl l ls).
Proof.
  induction articles as [|a articles IH]; intros books log; simpl.
  - exists [], []. rewrite !app_nil_r. split; [reflexivity | intros ? ? ? []].
  - destruct (process_article s a) as [[rec|] l] eqn:Ea.
    + destruct (IH (books ++ [rec]) (log ++ l)) as [bs [ls [Hs Hin]]].
      exists (rec :: bs), (l ++ ls). split.
      * rewrite Hs, <- !app_assoc. reflexivity.
      * intros a' rec' l' [<-|Ha'] Hp.
        -- rewrite Ea in Hp. injection Hp as <- <-.
           split; [now left | now apply incl_appl].
        -- destruct (Hin a' rec' l' Ha' Hp) as [H1 H2].
           split; [now right | now apply incl_appr].
    + destruct (IH books (log ++ l)) as [bs [ls [Hs Hin]]].
      exists bs, (l ++ ls). split.
      * rewrite Hs, <- !app_assoc. reflexivity.
      * intros a' rec' l' [<-|Ha'] Hp.
        -- rewrite Ea in Hp. discriminate.
        -- destruct (Hin a' rec' l' Ha' Hp) as [H1 H2].
           split; [exact H1 | now apply incl_appr].
Qed.

Lemma scrape_pages_extends (s : site) (fuel : nat) :
  forall page books log books' log',
    scrape_pages fuel s page books log = Some (books', log') ->
    exists bs ls, books' = books ++ bs /\ log' = log ++ ls.
Proof.
  induction fuel as [|fuel IH]; intros page books log books' log';
    simpl; [discriminate|].
  destruct (get_listing s page) as [|status articles].
  - intros [= <- <-]. exists [], [ErrPage page]. now rewrite app_nil_r.
  - destruct (negb (status =? 200)).
    + intros [= <- <-]. exists [], []. now rewrite !app_nil_r.
    + destruct articles as [|a articles].
      * intros [= <- <-]. exists [], []. now rewrite !app_nil_r.
      * destruct (scrape_articles_extends s (a :: articles) books log)
          as [bs [ls [Hs _]]].
        rewrite Hs. intros H. apply IH in H as [bs' [ls' [-> ->]]].
        exists (bs ++ bs'), (ls ++ [ScrapedPage page] ++ ls').
        now rewrite <- !app_assoc.
Qed.

Lemma scrape_pages_keeps_page (s : site) (fuel : nat) (page : N)
  (books : list dict) (log : list event) books' log' articles a rec l :
  scrape_pages fuel s page books log = Some (books', log') ->
  get_listing s page = Response 200 articles ->
  In a articles ->
  process_article s a = (Some rec, l) ->
  In rec books' /\ incl l log'.
Proof.
  destruct fuel as [|fuel]; simpl; [discriminate|].
  intros H Hpage Ha Hp. rewrite Hpage in H. cbn [N.eqb negb] in H.
  change (negb (200 =? 200)) with false in H. cbv iota in H.
  destruct articles as [|a0 articles]; [destruct Ha|].
  destruct (scrape_articles_extends s (a0 :: articles) books log)
    as [bs [ls [Hs Hin]]].
  rewrite Hs in H. apply scrape_pages_extends in H as [bs' [ls' [-> ->]]].
  destruct (Hin a rec l Ha Hp) as [H1 H2]. split.
  - apply in_or_app. left. apply in_or_app. now right.
  - intros e He. apply in_or_app. left. apply in_or_app. left.
    apply in_or_app. right. now apply H2.
Qed.

Lemma scrape_pages_terminates (s : site) (n : nat) :
  forall page books log,
    stops s (page + N.of_nat n) = true ->
    exists result, scrape_pages (S n) s page books log = Some result.
Proof.
  induction n as [|n IH]; intros page books log Hstop.
  - rewrite N.add_0_r in Hstop. unfold stops in Hstop. cbn [scrape_pages].
    destruct (get_listing s page) as [|status articles]; [eauto|].
    destruct articles as [|a articles].
    + destruct (negb (status =? 200)); eauto.
    + rewrite Hstop. eauto.
  - cbn [scrape_pages]. fold scrape_pages.
    destruct (get_listing s page) as [|status articles]; [eauto|].
    destruct (negb (status =? 200)); [eauto|].
    destruct articles as [|a articles]; [eauto|].
    destruct (scrape_articles s (a :: articles) books log) as [books' log'].
    apply IH. now replace (page + 1 + N.of_nat n) with (page + N.of_nat (S n)) by lia.
Qed.

(** C1, as stated, fails.  On a site whose only item has a detail page
    that cannot be fetched, get_book_details returns the empty dict (it
    does not raise), and the crawl returns a record for the item. *)
Lemma failed_item_is_returned :
  get_book_details detail_down_site sample_link = ([], [ErrDetails sample_link])
  /\ scrape_books 2 detail_down_site
     = Some ([ [ (ustr "Title", ustr "A Light in the Attic");
                 (ustr "Price", ustr "Â£51.77");
                 (ustr "Rating", ustr "Three");
                 (ustr "Product Link", sample_link) ] ],
             [ErrDetails sample_link; ScrapedPage 1]).
Proof. split; vm_compute; reflexivity. Qed.

(** C1, amended.  When the fetch or the parse of an item's detail page
    fails, get_book_details prints the error and returns the empty dict; it
    does not raise.  The crawler then makes the record of the four listing
    fields for the item.  Every record the crawler makes for an article of
    a page it scrapes is in the sequence the crawl returns, and what was
    printed for it is in the log; a record of listing fields only has no
    Category, so no category filter keeps it.  The crawler makes no record
    for an article only when reading one of its listing fields raises.  The
    crawl returns as soon as some page stops it. *)
Theorem failed_details_keep_listing_record (s : site) :
  (forall url,
      try_book_details s url = None ->
      get_book_details s url = ([], [ErrDetails url]))
  /\ (forall a h t p r,
        href a = Some h -> title a = Some t -> price_color a = Some p ->
        rating_of a = Some r ->
        try_book_details s (BASE_SITE ++ h) = None ->
        process_article s a
        = (Some (listing_record (BASE_SITE ++ h) t p r),
           [ErrDetails (BASE_SITE ++ h)]))
  /\ (forall fuel page books log books' log' articles a rec l,
        scrape_pages fuel s page books log = Some (books', log') ->
        get_listing s page = Response 200 articles ->
        In a articles ->
        process_article s a = (Some rec, l) ->
        In rec books' /\ incl l log')
  /\ (forall targets link t p r,
        has_category_in targets (listing_record link t p r) = false)
  /\ (forall a l,
        process_article s a = (None, l) ->
        href a = None \/ title a = None \/ price_color a = None
        \/ rating_of a = None)
  /\ (forall n, stops s (1 + N.of_nat n) = true ->
                exists result, scrape_books (S n) s = Some result).
Proof.
  split; [|split; [|split; [|split; [|split]]]].
  - intros url H. unfold get_book_details. now rewrite H.
  - intros a h t p r Hh Ht Hp Hr Hfail.
    unfold process_article, get_book_details.
    rewrite Hh, Hfail, Ht, Hp, Hr. reflexivity.
  - intros. eapply scrape_pages_keeps_page; eassumption.
  - reflexivity.
  - intros a l. unfold process_article.
    destruct (href a); [|tauto].
    destruct (get_book_details s _).
    destruct (title a); [|tauto].
    destruct (price_color a); [|tauto].
    destruct (rating_of a); [discriminate | tauto].
  - intros n H. now apply scrape_pages_terminates.
Qed.

Lemma failed_details_keep_listing_record_witness :
  let link := BASE_SITE ++ ustr "a-light-in-the-attic_1000/index.html" in
  process_article detail_down_site sample_article
  = (Some (listing_record link (ustr "A Light in the Attic")
                          (ustr " Â£51.77 ") (ustr "Three")),
     [ErrDetails link]).
Proof.
  intros link. subst link.
  apply (proj1 (proj2 (failed_details_keep_listing_record detail_down_site))
           sample_article (ustr "a-light-in-the-attic_1000/index.html")
           (ustr "A Light in the Attic") (ustr " Â£51.77 ") (ustr "Three"));
    reflexivity.
Defined.

(* ================================================================== *)
(** * Percentages (C5) *)

Lemma mem_In (k : pystr) (l : list pystr) : mem k l = true <-> In k l.
Proof.
  unfold mem. rewrite existsb_exists. split.
  - intros [x [Hx E]]. apply str_eqb_eq in E. now subst.
  - intros H. exists k. split; [exact H | apply str_eqb_refl].
Qed.

Lemma fold_add_key_In (l acc : list pystr) (c : pystr) :
  In c (fold_left add_key l acc) <-> In c acc \/ In c l.
Proof.
  revert acc. induction l as [|k l IH]; intros acc; simpl; [tauto|].
  rewrite IH. unfold add_key. destruct (mem k acc) eqn:E.
  - apply mem_In in E. split; [tauto|]. intros [H|[<-|H]]; tauto.
  - rewrite in_app_iff. simpl. tauto.
Qed.

Lemma unique_In (l : list pystr) (c : pystr) : In c (unique l) <-> In c l.
Proof. unfold unique. rewrite fold_add_key_In. simpl. tauto. Qed.







(** On binary64 the threshold test gives the same answer as on the exact
    percentage, for every number of books up to 400 in a category. *)
Lemma binary64_threshold_agrees : models_agree_upto 400 = true.
Proof. vm_compute. reflexivity. Qed.



(* ================================================================== *)
(** * The numerical questions (C6) *)

Lemma insert_sorted_In (k c : pystr) (l : list pystr) :
  In c (insert_sorted k l) <-> c = k \/ In c l.
Proof.
  induction l as [|k' l IH]; simpl.
  - intuition congruence.
  - destruct (str_leb k k'); simpl; [intuition congruence|].
    rewrite IH. intuition congruence.
Qed.

Lemma sort_keys_In (c : pystr) (l : list pystr) :
  In c (sort_keys l) <-> In c l.
Proof.
  unfold sort_keys. induction l as [|k l IH]; simpl; [tauto|].
  rewrite insert_sorted_In, IH. intuition congruence.
Qed.

Lemma group_keys_In (df : list book) (c : pystr) :
  In c (group_keys df) <-> exists b, In b df /\ Category b = c.
Proof.
  unfold group_keys. rewrite sort_keys_In, unique_In, in_map_iff.
  split; intros [b [H1 H2]]; exists b; tauto.
Qed.

Lemma assoc_get_keyed {V} (f : pystr -> V) (keys : list pystr) (c : pystr) :
  assoc_get c (map (fun k => (k, f k)) keys)
  = if mem c keys then Some (f c) else None.
Proof.
  induction keys as [|k keys IH]; simpl; [reflexivity|].
  destruct (str_eqb c k) eqn:E; simpl.
  - apply str_eqb_eq in E. now subst.
  - exact IH.
Qed.

Lemma loc_present (df : list book) (c : pystr) :
  (exists b, In b df /\ Category b = c) ->
  loc (df_grouped df) c = Ok (stats_of (filter (in_category c) df)).
Proof.
  intros H. apply group_keys_In, mem_In in H.
  unfold loc, df_grouped. now rewrite assoc_get_keyed, H.
Qed.

Lemma loc_absent (df : list book) (c : pystr) :
  (forall b, In b df -> Category b <> c) ->
  loc (df_grouped df) c = Raise (KeyError c).
Proof.
  intros H. unfold loc, df_grouped. rewrite assoc_get_keyed.
  destruct (mem c (group_keys df)) eqn:E; [|reflexivity].
  apply mem_In, group_keys_In in E as [b [Hb Hc]].
  now apply H in Hb.
Qed.

(** C6.  On a dataset without a Historical Fiction record the numerical
    questions raise KeyError for that label; on a dataset with such a
    record but without a Travel record they raise KeyError for Travel; so
    whenever either category is missing the query raises a lookup error
    and returns no answers.  Only with both present does it return. *)
Theorem numerical_questions_lookup_error (df : list book) :
  ((forall b, In b df -> Category b <> ustr "Historical Fiction") ->
   analyze_numerical_questions df
   = Raise (KeyError (ustr "Historical Fiction")))
  /\ ((exists b, In b df /\ Category b = ustr "Historical Fiction") ->
      (forall b, In b df -> Category b <> ustr "Travel") ->
      analyze_numerical_questions df = Raise (KeyError (ustr "Travel")))
  /\ ((forall b, In b df -> Category b <> ustr "Historical Fiction")
      \/ (forall b, In b df -> Category b <> ustr "Travel") ->
      exists label, analyze_numerical_questions df = Raise (KeyError label))
  /\ ((exists b, In b df /\ Category b = ustr "Historical Fiction") ->
      (exists b, In b df /\ Category b = ustr "Travel") ->
      exists answers, analyze_numerical_questions df = Ok answers).
Proof.
  assert (H1 : (forall b, In b df -> Category b <> ustr "Historical Fiction") ->
               analyze_numerical_questions df
               = Raise (KeyError (ustr "Historical Fiction"))).
  { intros H. unfold analyze_numerical_questions.
    now rewrite (loc_absent df _ H). }
  assert (H2 : (exists b, In b df /\ Category b = ustr "Historical Fiction") ->
               (forall b, In b df -> Category b <> ustr "Travel") ->
               analyze_numerical_questions df = Raise (KeyError (ustr "Travel"))).
  { intros Hh Ht. unfold analyze_numerical_questions.
    rewrite (loc_present df _ Hh). cbn [bind].
    now rewrite (loc_absent df _ Ht). }
  split; [exact H1|]. split; [exact H2|]. split.
  - intros [Hh|Ht].
    + eexists. now apply H1.
    + destruct (existsb (in_category (ustr "Historical Fiction")) df) eqn:E.
      * apply existsb_exists in E as [b [Hb Hc]].
        apply str_eqb_eq in Hc. eexists. apply H2; [now exists b | exact Ht].
      * eexists. apply H1. intros b Hb Hc.
        assert (existsb (in_category (ustr "Historical Fiction")) df = true).
        { apply existsb_exists. exists b. split; [exact Hb|].
          now apply str_eqb_eq. }
        congruence.
  - intros Hh Ht. unfold analyze_numerical_questions.
    rewrite (loc_present df _ Hh). cbn [bind].
    rewrite (loc_present df _ Ht). cbn [bind]. eauto.
Qed.

Lemma numerical_questions_lookup_error_witness :
  analyze_numerical_questions [book_in "Travel" 45; book_in "Travel" 12]
  = Raise (KeyError (ustr "Historical Fiction")).
Proof.
  apply (proj1 (numerical_questions_lookup_error
                  [book_in "Travel" 45; book_in "Travel" 12])).
  intros b [<-|[<-|[]]]; vm_compute; discriminate.
Defined.

(* ================================================================== *)
(** * get_book_details: when it fails and what it returns *)

Lemma dict_get_set (k k' v : pystr) (d : dict) :
  dict_get k (dict_set k' v d) = if str_eqb k k' then Some v else dict_get k d.
Proof.
  destruct (str_eqb k k') eqn:E.
  - apply str_eqb_eq in E. subst. apply dict_get_set_eq.
  - apply dict_get_set_neq. now apply str_eqb_neq.
Qed.

Lemma add_rows_some (rows : list (option pystr * option pystr)) :
  forall d, (exists d', add_rows rows d = Some d') <-> well_formed_rows rows = true.
Proof.
  induction rows as [|[[key|] [value|]] rows IH]; intros d; simpl.
  - split; [reflexivity | intros _; now exists d].
  - apply IH.
  - split; [intros [d' H]; discriminate | discriminate].
  - split; [intros [d' H]; discriminate | discriminate].
  - split; [intros [d' H]; discriminate | discriminate].
Qed.

Lemma add_rows_get (k : pystr) (rows : list (option pystr * option pystr)) :
  forall d d',
    add_rows rows d = Some d' ->
    dict_get k d' = match last_value k rows with
                    | Some v => Some v
                    | None => dict_get k d
                    end.
Proof.
  induction rows as [|[[key|] [value|]] rows IH]; intros d d'; simpl;
    try discriminate.
  - now intros [= <-].
  - intros H. rewrite (IH _ _ H).
    destruct (last_value k rows); [reflexivity|]. rewrite dict_get_set.
    now destruct (str_eqb k key).
Qed.

Lemma parse_details_get (p : detail_page) (d : dict) (k : pystr) :
  parse_details p = Some d ->
  dict_get k d
  = match last_value k (table_rows p) with
    | Some v => Some v
    | None => if str_eqb k (ustr "Category") then Some (category_of p)
              else if str_eqb k (ustr "Description") then description_of p
                   else None
    end.
Proof.
  unfold parse_details, table_rows.
  destruct (description_of p) as [description|]; [|discriminate].
  assert (Hbase : dict_get k (dict_set (ustr "Category") (category_of p)
                                (dict_set (ustr "Description") description []))
                  = if str_eqb k (ustr "Category") then Some (category_of p)
                    else if str_eqb k (ustr "Description") then Some description
                         else None).
  { rewrite !dict_get_set. reflexivity. }
  destruct (table p) as [rows|].
  - intros H. now rewrite (add_rows_get k rows _ _ H), Hbase.
  - intros [= <-]. now rewrite Hbase.
Qed.

Lemma add_rows_none (rows : list (option pystr * option pystr)) (d : dict) :
  add_rows rows d = None <-> well_formed_rows rows = false.
Proof.
  pose proof (add_rows_some rows d) as H.
  destruct (add_rows rows d) as [d'|]; destruct (well_formed_rows rows).
  - split; discriminate.
  - assert (false = true) by (apply H; now exists d'). discriminate.
  - destruct (proj2 H eq_refl) as [d' Hd']. discriminate.
  - tauto.
Qed.

Lemma parse_details_none (p : detail_page) :
  parse_details p = None
  <-> description_tag p = Some None \/ well_formed_rows (table_rows p) = false.
Proof.
  unfold parse_details, description_of, table_rows.
  destruct (description_tag p) as [[text|]|]; [|tauto|].
  - destruct (table p) as [rows|].
    + rewrite add_rows_none. split; [tauto | intros [H|H]; [discriminate | exact H]].
    + split; [discriminate | intros [H|H]; discriminate].
  - destruct (table p) as [rows|].
    + rewrite add_rows_none. split; [tauto | intros [H|H]; [discriminate | exact H]].
    + split; [discriminate | intros [H|H]; discriminate].
Qed.

Lemma parse_details_nonempty (p : detail_page) (d : dict) :
  parse_details p = Some d -> d <> [].
Proof.
  intros H ->. pose proof (parse_details_get p [] (ustr "Category") H) as Hc.
  destruct (last_value _ _); discriminate.
Qed.

(** get_book_details returns the empty dict, and prints, exactly when the
    request raises, the status is 4xx or 5xx, the description marker has no
    following paragraph, or a row of the attribute table lacks its header
    or its value cell; in every other case it prints nothing and returns a
    record that is not empty.  One bad table row thus loses the whole
    page, and a page answered with any other status is parsed. *)
Theorem get_book_details_failure (s : site) (book_url : pystr) :
  (get_book_details s book_url = ([], [ErrDetails book_url])
   <-> get_detail s book_url = ConnectionError
       \/ exists status page,
           get_detail s book_url = Response status page
           /\ (is_http_error status = true
               \/ description_tag page = Some None
               \/ well_formed_rows (table_rows page) = false))
  /\ (get_book_details s book_url = ([], [ErrDetails book_url])
      \/ exists book_data,
          get_book_details s book_url = (book_data, [])
          /\ book_data <> []).
Proof.
  assert (Hnone : try_book_details s book_url = None
                  <-> get_detail s book_url = ConnectionError
                      \/ exists status page,
                          get_detail s book_url = Response status page
                          /\ (is_http_error status = true
                              \/ description_tag page = Some None
                              \/ well_formed_rows (table_rows page) = false)).
  { unfold try_book_details.
    destruct (get_detail s book_url) as [|status page].
    - split; [now left | reflexivity].
    - destruct (is_http_error status) eqn:Eh.
      + split; [|reflexivity]. intros _. right. exists status, page. tauto.
      + rewrite parse_details_none. split.
        * intros H. right. exists status, page. tauto.
        * intros [H|[st [pg [[= <- <-] [H|H]]]]]; [discriminate|congruence|exact H]. }
  unfold get_book_details in *.
  destruct (try_book_details s book_url) as [d|] eqn:Et.
  - assert (Hd : d <> []).
    { unfold try_book_details in Et.
      destruct (get_detail s book_url) as [|status page]; [discriminate|].
      destruct (is_http_error status); [discriminate|].
      now apply parse_details_nonempty with page. }
    split.
    + split.
      * intros H. discriminate H.
      * intros H. apply Hnone in H. discriminate.
    + right. now exists d.
  - split; [|now left]. split; [|reflexivity].
    intros _. now apply Hnone.
Qed.

Lemma assoc_set_keys {V} (k : pystr) (v : V) (d : list (pystr * V)) :
  map fst (assoc_set k v d)
  = if mem k (map fst d) then map fst d else map fst d ++ [k].
Proof.
  induction d as [|[k' v'] d IH]; simpl; [reflexivity|].
  destruct (str_eqb k k') eqn:E; simpl.
  - apply str_eqb_eq in E. now subst.
  - rewrite IH. now destruct (mem k (map fst d)).
Qed.

Lemma assoc_set_nodup {V} (k : pystr) (v : V) (d : list (pystr * V)) :
  NoDup (map fst d) -> NoDup (map fst (assoc_set k v d)).
Proof.
  intros H. rewrite assoc_set_keys.
  destruct (mem k (map fst d)) eqn:E; [exact H|].
  apply NoDup_app; [exact H | repeat constructor; intros [] |].
  intros x Hx [<-|[]]. apply mem_In in Hx. congruence.
Qed.

Lemma add_rows_nodup (rows : list (option pystr * option pystr)) :
  forall d d', add_rows rows d = Some d' ->
               NoDup (map fst d) -> NoDup (map fst d').
Proof.
  induction rows as [|[[key|] [value|]] rows IH]; intros d d'; simpl;
    try discriminate.
  - now intros [= <-].
  - intros H Hd. apply (IH _ _ H). now apply assoc_set_nodup.
Qed.

Lemma parse_details_nodup (p : detail_page) (d : dict) :
  parse_details p = Some d -> NoDup (map fst d).
Proof.
  unfold parse_details.
  destruct (description_of p) as [description|]; [|discriminate].
  assert (H0 : NoDup (map fst (dict_set (ustr "Category") (category_of p)
                                 (dict_set (ustr "Description") description []))))
    by (repeat apply assoc_set_nodup; constructor).
  destruct (table p) as [rows|].
  - intros H. now apply (add_rows_nodup rows _ _ H).
  - now intros [= <-].
Qed.

Lemma get_book_details_nodup (s : site) (book_url : pystr) :
  NoDup (map fst (fst (get_book_details s book_url))).
Proof.
  unfold get_book_details, try_book_details.
  destruct (get_detail s book_url) as [|status page]; [constructor|].
  destruct (is_http_error status); [constructor|].
  destruct (parse_details page) as [d|] eqn:E; [|constructor].
  now apply parse_details_nodup with page.
Qed.

(** The record get_book_details returns for a page it can parse: under
    every key it holds the value of the last table row with that label;
    where no row has the label, Category holds the third breadcrumb entry
    ("Unknown" when the breadcrumb is absent or has fewer than three
    entries), Description holds the description, and any other key is
    absent.  No key occurs twice. *)
Theorem get_book_details_record
  (s : site) (book_url : pystr) (status : N) (page : detail_page) :
  get_detail s book_url = Response status page ->
  is_http_error status = false ->
  description_tag page <> Some None ->
  well_formed_rows (table_rows page) = true ->
  exists book_data description,
    get_book_details s book_url = (book_data, [])
    /\ description_of page = Some description
    /\ (forall k,
          dict_get k book_data
          = match last_value k (table_rows page) with
            | Some v => Some v
            | None => if str_eqb k (ustr "Category") then Some (category_of page)
                      else if str_eqb k (ustr "Description") then Some description
                           else None
            end)
    /\ category_of page = match breadcrumb page with
                          | Some (_ :: _ :: entry :: _) => entry
                          | _ => ustr "Unknown"
                          end
    /\ NoDup (map fst book_data).
Proof.
  intros Hg Hs Hd Hw.
  destruct (parse_details page) as [d|] eqn:Ep.
  - assert (Hdesc : exists description, description_of page = Some description).
    { unfold parse_details in Ep.
      destruct (description_of page) as [description|]; [eauto | discriminate]. }
    destruct Hdesc as [description Hdesc].
    exists d, description. split; [|split; [exact Hdesc|split; [|split]]].
    + unfold get_book_details, try_book_details. now rewrite Hg, Hs, Ep.
    + intros k. rewrite (parse_details_get page d k Ep). now rewrite Hdesc.
    + unfold category_of. destruct (breadcrumb page) as [[|a [|b [|c rest]]]|];
        reflexivity.
    + now apply parse_details_nodup with page.
  - apply parse_details_none in Ep as [H|H]; congruence.
Qed.

Lemma get_book_details_record_witness :
  exists book_data,
    get_book_details colliding_site sample_link = (book_data, [])
    /\ dict_get (ustr "Price") book_data = Some (ustr "Â£0.00")
    /\ dict_get (ustr "Category") book_data = Some (ustr "Poetry")
    /\ dict_get (ustr "Rating") book_data = None.
Proof.
  destruct (get_book_details_record colliding_site sample_link 200 colliding_page)
    as [d [description [Hd [_ [Hk _]]]]].
  - reflexivity.
  - reflexivity.
  - discriminate.
  - reflexivity.
  - exists d. split; [exact Hd|].
    rewrite !Hk. repeat split; vm_compute; reflexivity.
Defined.

(* ================================================================== *)
(** * The records of a crawl *)

Lemma drop_while_head (p : char -> bool) (s : pystr) :
  match drop_while p s with
  | [] => True
  | c :: _ => p c = false
  end.
Proof.
  induction s as [|c s IH]; simpl; [exact I|].
  destruct (p c) eqn:E; [exact IH | exact E].
Qed.

Lemma drop_while_fixed (p : char -> bool) (s : pystr) :
  match s with [] => True | c :: _ => p c = false end ->
  drop_while p s = s.
Proof.
  destruct s as [|c s]; simpl; [reflexivity|]. now intros ->.
Qed.

Lemma drop_while_suffix (p : char -> bool) (s : pystr) :
  exists pre, s = pre ++ drop_while p s.
Proof.
  induction s as [|c s [pre IH]]; simpl.
  - now exists [].
  - destruct (p c).
    + exists (c :: pre). simpl. now f_equal.
    + now exists [].
Qed.

(** Stripping leaves nothing to strip. *)
Lemma strip_with_idempotent (p : char -> bool) (s : pystr) :
  strip_with p (strip_with p s) = strip_with p s.
Proof.
  unfold strip_with.
  set (t := drop_while p s). set (x := drop_while p (rev t)).
  assert (Hx : drop_while p x = x) by (apply drop_while_fixed, drop_while_head).
  assert (Hr : drop_while p (rev x) = rev x).
  { apply drop_while_fixed.
    destruct (drop_while_suffix p (rev t)) as [pre Hpre]. fold x in Hpre.
    assert (Ht : t = rev x ++ rev pre).
    { rewrite <- (rev_involutive t), Hpre, rev_app_distr. reflexivity. }
    pose proof (drop_while_head p s) as Hh. fold t in Hh.
    destruct (rev x) as [|c r]; [exact I|].
    rewrite Ht in Hh. exact Hh. }
  now rewrite Hr, rev_involutive, Hx.
Qed.

Lemma process_article_record (s : site) (a : article) (rec : dict) (l : list event) :
  process_article s a = (Some rec, l) -> crawled_record rec.
Proof.
  unfold process_article.
  destruct (href a) as [h|]; [|discriminate].
  pose proof (get_book_details_nodup s (BASE_SITE ++ h)) as Hn.
  destruct (get_book_details s (BASE_SITE ++ h)) as [d l0]. cbn [fst] in Hn.
  destruct (title a) as [t|]; [|discriminate].
  destruct (price_color a) as [p|]; [|discriminate].
  destruct (rating_of a) as [r|]; [|discriminate].
  assert (Hc : crawled_record
                 (dict_set (ustr "Product Link") (BASE_SITE ++ h)
                    (dict_set (ustr "Rating") r
                       (dict_set (ustr "Price") (strip p)
                          (dict_set (ustr "Title") t d))))).
  { destruct (merged_listing_fields d t (strip p) r (BASE_SITE ++ h))
      as [HT [HP [HR [HL _]]]].
    split; [|split; [|split; [|split]]].
    - unfold dict_set. now repeat apply assoc_set_nodup.
    - rewrite HT. discriminate.
    - rewrite HR. discriminate.
    - exists (strip p). split; [exact HP | apply strip_with_idempotent].
    - now exists h. }
  intros [= <- _]. exact Hc.
Qed.

Lemma scrape_articles_flat (s : site) (articles : list article) :
  forall books log,
    scrape_articles s articles books log
    = (books ++ flat_map (article_record s) articles,
       log ++ flat_map (fun a => snd (process_article s a)) articles).
Proof.
  induction articles as [|a articles IH]; intros books log; simpl.
  - now rewrite !app_nil_r.
  - unfold article_record at 1.
    destruct (process_article s a) as [[rec|] l]; cbn [fst snd];
      rewrite IH, <- !app_assoc; reflexivity.
Qed.

Lemma scrape_pages_forall (P : dict -> Prop) (s : site) (fuel : nat) :
  (forall a rec l, process_article s a = (Some rec, l) -> P rec) ->
  forall page books log books' log',
    scrape_pages fuel s page books log = Some (books', log') ->
    Forall P books -> Forall P books'.
Proof.
  intros HP.
  induction fuel as [|fuel IH]; intros page books log books' log';
    simpl; [discriminate|].
  destruct (get_listing s page) as [|status articles].
  - now intros [= <- <-].
  - destruct (negb (status =? 200)); [now intros [= <- <-]|].
    destruct articles as [|a articles]; [now intros [= <- <-]|].
    rewrite scrape_articles_flat. intros H Hb. apply (IH _ _ _ _ _ H).
    apply Forall_app. split; [exact Hb|].
    apply Forall_flat_map, Forall_forall. intros a' _.
    unfold article_record.
    destruct (process_article s a') as [[rec|] l] eqn:E; cbn [fst];
      constructor; [now apply HP with a' l | constructor].
Qed.

Lemma scrape_pages_records (s : site) (fuel : nat) :
  forall page books log books' log',
    scrape_pages fuel s page books log = Some (books', log') ->
    Forall crawled_record books -> Forall crawled_record books'.
Proof.
  apply scrape_pages_forall. intros a rec l. apply process_article_record.
Qed.

(** Every record scrape_books returns has each key once, holds a Title and
    a Rating, a Price without white space at either end, and a Product Link
    that starts with the catalogue address. *)
Theorem scrape_books_records
  (fuel : nat) (s : site) (books : list dict) (log : list event) :
  scrape_books fuel s = Some (books, log) ->
  Forall crawled_record books.
Proof.
  intros H. apply (scrape_pages_records s fuel 1 [] [] books log H). constructor.
Qed.

Lemma scrape_books_records_witness :
  Forall crawled_record
         [ [ (ustr "Title", ustr "A Light in the Attic");
             (ustr "Price", ustr "Â£51.77");
             (ustr "Rating", ustr "Three");
             (ustr "Product Link", sample_link) ] ].
Proof.
  apply (scrape_books_records 2 detail_down_site _
           [ErrDetails sample_link; ScrapedPage 1]).
  vm_compute. reflexivity.
Defined.

Lemma pages_from_succ (page : N) (n : nat) :
  pages_from page (S n) = page :: pages_from (page + 1) n.
Proof.
  unfold pages_from. cbn [seq map]. rewrite <- seq_shift, map_map.
  rewrite N.add_0_r. f_equal. apply map_ext. intros i. lia.
Qed.

Lemma stops_false (s : site) (page : N) :
  stops s page = false ->
  exists a articles, get_listing s page = Response 200 (a :: articles).
Proof.
  unfold stops. destruct (get_listing s page) as [|status [|a articles]];
    try discriminate.
  intros H. apply negb_false_iff, N.eqb_eq in H. subst. eauto.
Qed.

Lemma scrape_pages_closed_form (s : site) (n : nat) :
  forall page books log,
    (forall i, (i < n)%nat -> stops s (page + N.of_nat i) = false) ->
    stops s (page + N.of_nat n) = true ->
    (forall k, exists log',
        scrape_pages (S n + k) s page books log
        = Some (books ++ flat_map (page_records s) (pages_from page n), log'))
    /\ (forall m, (m <= n)%nat -> scrape_pages m s page books log = None).
Proof.
  induction n as [|n IH]; intros page books log Hgo Hstop.
  - rewrite N.add_0_r in Hstop. split.
    + intros k. cbn [Nat.add scrape_pages pages_from seq map flat_map].
      rewrite app_nil_r. unfold stops in Hstop.
      destruct (get_listing s page) as [|status [|a articles]]; eauto.
      * destruct (negb (status =? 200)); eauto.
      * rewrite Hstop. eauto.
    + intros m Hm. now replace m with O by lia.
  - destruct (stops_false s page) as [a [articles Hpage]].
    { rewrite <- (N.add_0_r page). apply (Hgo O). lia. }
    destruct (IH (page + 1)
                 (books ++ page_records s page)
                 ((log ++ flat_map (fun a => snd (process_article s a)) (a :: articles))
                    ++ [ScrapedPage page])) as [Hsome Hnone].
    { intros i Hi. replace (page + 1 + N.of_nat i) with (page + N.of_nat (S i)) by lia.
      apply Hgo. lia. }
    { now replace (page + 1 + N.of_nat n) with (page + N.of_nat (S n)) by lia. }
    assert (Hstep : forall fuel,
      scrape_pages (S fuel) s page books log
      = scrape_pages fuel s (page + 1) (books ++ page_records s page)
          ((log ++ flat_map (fun a => snd (process_article s a)) (a :: articles))
             ++ [ScrapedPage page])).
    { intros fuel. cbn [scrape_pages]. rewrite Hpage.
      change (negb (200 =? 200)) with false. cbv iota.
      rewrite scrape_articles_flat. unfold page_records. now rewrite Hpage. }
    split.
    + intros k. destruct (Hsome k) as [log' Hlog'].
      exists log'. change (S (S n) + k)%nat with (S (S n + k)).
      rewrite Hstep, Hlog', pages_from_succ. cbn [flat_map].
      now rewrite <- app_assoc.
    + intros [|m] Hm; [reflexivity|]. rewrite Hstep. apply Hnone. lia.
Qed.

(** The crawl visits the pages 1, 2, ... in order and ends at the first
    page whose request raises, whose status is not 200 or which lists no
    article.  If that is page n+1, then with fuel for more than n pages
    scrape_books returns the records of the pages 1 to n, in page order and
    within a page in article order (the records collected before a failing
    page are kept), and what later pages hold plays no part; with less fuel
    the model has no result. *)
Theorem scrape_books_closed_form (s : site) (n : nat) :
  (forall i, (i < n)%nat -> stops s (1 + N.of_nat i) = false) ->
  stops s (1 + N.of_nat n) = true ->
  (forall k, exists log,
      scrape_books (S n + k) s
      = Some (flat_map (page_records s) (pages_from 1 n), log))
  /\ (forall m, (m <= n)%nat -> scrape_books m s = None).
Proof.
  intros Hgo Hstop.
  destruct (scrape_pages_closed_form s n 1 [] [] Hgo Hstop) as [H1 H2].
  split; [exact H1 | exact H2].
Qed.

Lemma scrape_books_closed_form_witness :
  exists log,
    scrape_books (2 + 5) colliding_site
    = Some (flat_map (page_records colliding_site) (pages_from 1 1), log).
Proof.
  assert (Hgo : forall i, (i < 1)%nat ->
                          stops colliding_site (1 + N.of_nat i) = false).
  { intros i Hi. replace i with O by lia. reflexivity. }
  exact (proj1 (scrape_books_closed_form colliding_site 1 Hgo eq_refl) 5%nat).
Defined.

(* ================================================================== *)
(** * process_book_data: missing columns, shape and values *)

Lemma assoc_get_in {V} (k : pystr) (d : list (pystr * V)) :
  assoc_get k d <> None <-> In k (map fst d).
Proof.
  induction d as [|[k' v] d IH]; simpl.
  - split; [congruence | tauto].
  - destruct (str_eqb k k') eqn:E.
    + apply str_eqb_eq in E. subst. split; [now left | discriminate].
    + rewrite IH. apply str_eqb_neq in E. split; [tauto|].
      intros [H|H]; [congruence | exact H].
Qed.

Lemma keys_union_In (books : list dict) (k : pystr) :
  In k (keys_union books) <-> exists b, In b books /\ dict_get k b <> None.
Proof.
  unfold keys_union.
  assert (H : forall acc,
    In k (fold_left (fun acc b => fold_left add_key (map fst b) acc) books acc)
    <-> In k acc \/ exists b, In b books /\ In k (map fst b)).
  { induction books as [|b books IH]; intros acc; simpl.
    - split; [tauto | intros [H|[b [[] _]]]; exact H].
    - rewrite IH, fold_add_key_In. split.
      + intros [[H|H]|[b' [H1 H2]]]; eauto.
      + intros [H|[b' [[<-|H1] H2]]]; eauto. }
  rewrite H. simpl. split.
  - intros [[]|[b [H1 H2]]]. exists b. split; [exact H1|].
    now apply assoc_get_in.
  - intros [b [H1 H2]]. right. exists b. split; [exact H1|].
    now apply assoc_get_in.
Qed.

Lemma mem_false_no_key (books : list dict) (c : pystr) :
  mem c (keys_union books) = false ->
  forall b, In b books -> dict_get c b = None.
Proof.
  intros H b Hb. destruct (dict_get c b) as [v|] eqn:E; [|reflexivity].
  assert (Hin : In c (keys_union books)).
  { apply keys_union_In. exists b. split; [exact Hb | congruence]. }
  apply mem_In in Hin. congruence.
Qed.

(** process_book_data raises KeyError only for Title, Description,
    Category, Price, Rating or Availability, and only when no record at
    all has that key (so it raises on the empty list); when each of the six
    keys occurs in some record, it raises no KeyError, whatever the other
    records lack. *)
Theorem process_book_data_key_error (books : list dict) :
  (forall c,
      process_book_data books = Raise (KeyError c) ->
      In c REQUIRED_COLUMNS /\ forall b, In b books -> dict_get c b = None)
  /\ ((forall c, In c REQUIRED_COLUMNS ->
                 exists b, In b books /\ dict_get c b <> None) ->
      forall c, process_book_data books <> Raise (KeyError c))
  /\ (books = [] ->
      process_book_data books = Raise (KeyError (ustr "Category"))).
Proof.
  assert (H1 : forall c,
      process_book_data books = Raise (KeyError c) ->
      In c REQUIRED_COLUMNS /\ forall b, In b books -> dict_get c b = None).
  { intros c. rewrite process_book_data_unfold.
    destruct (mem (ustr "Category") (keys_union books)) eqn:Ec.
    - unfold first_missing.
      destruct (find _ REQUIRED_COLUMNS) as [c'|] eqn:Ef.
      + intros [= <-]. apply find_some in Ef as [Hin Hm].
        apply negb_true_iff in Hm. split; [exact Hin|].
        now apply mem_false_no_key.
      + destruct (astype_float _) as [prices|e] eqn:Ea; [discriminate|].
        cbn [bind]. intros [= ->].
        unfold astype_float in Ea.
        exfalso. clear -Ea.
        revert Ea. generalize (map price_text (raw_column "Price" (kept_books books))).
        induction l as [|x l IH]; simpl; [discriminate|].
        destruct (float_of_str x); [|discriminate].
        cbn [bind]. destruct (mapM _ l); [discriminate|].
        cbn [bind]. intros [= ->]. now apply IH.
    - intros [= <-]. split.
      + unfold REQUIRED_COLUMNS. simpl. tauto.
      + now apply mem_false_no_key. }
  split; [exact H1|]. split.
  - intros Hall c Hc. destruct (H1 c Hc) as [Hin Hnone].
    destruct (Hall c Hin) as [b [Hb Hsome]]. now apply Hsome, Hnone.
  - intros ->. reflexivity.
Qed.

Lemma process_book_data_key_error_witness :
  process_book_data
    [ [ (ustr "Title", ustr "A"); (ustr "Price", ustr "Â£1.00");
        (ustr "Rating", ustr "One") ];
      mk_book "B" "d" "Travel" "Â£2.00" "Two" "In stock" ]
  <> Raise (KeyError (ustr "Description")).
Proof.
  apply (proj1 (proj2 (process_book_data_key_error _))).
  intros c Hc.
  exists (mk_book "B" "d" "Travel" "Â£2.00" "Two" "In stock").
  split; [right; now left|].
  unfold REQUIRED_COLUMNS in Hc. simpl in Hc.
  repeat (destruct Hc as [<-|Hc]; [vm_compute; discriminate|]).
  destruct Hc.
Defined.

Lemma astype_float_length (l : list pystr) (fs : list pyfloat) :
  astype_float l = Ok fs -> List.length fs = List.length l.
Proof.
  intros H. apply astype_float_ok in H.
  induction H; simpl; congruence.
Qed.

(** In every frame process_book_data returns, each of the eight columns
    has exactly one value per record whose Category is a target category,
    so never more rows than records were given. *)
Theorem processed_frame_shape (books : list dict) (df : Frame cell) :
  process_book_data books = Ok df ->
  Forall (fun column => List.length (snd column) = List.length (kept_books books)) df
  /\ (List.length (kept_books books) <= List.length books)%nat.
Proof.
  intros H. apply process_book_data_ok in H as [prices [Hp ->]].
  apply astype_float_length in Hp.
  unfold raw_column in Hp. rewrite !length_map in Hp.
  split; [|apply filter_length_le].
  unfold normalized_frame, raw_column.
  repeat constructor; cbn [snd]; rewrite ?length_map; congruence.
Qed.

Lemma processed_frame_shape_witness :
  Forall (fun column => List.length (snd column) = List.length (kept_books sample_books))
         sample_frame.
Proof.
  exact (proj1 (processed_frame_shape sample_books sample_frame
                  process_sample_books)).
Defined.

(** In every frame process_book_data returns, each Category is a string
    and one of the four target categories, and each Availability Status is
    "In stock" or "Out of stock". *)
Theorem processed_frame_domains (books : list dict) (df : Frame cell) :
  process_book_data books = Ok df ->
  exists categories statuses,
    getcol df (ustr "Category") = Ok categories
    /\ Forall (fun x => exists c, x = CStr c /\ In c TARGET_CATEGORIES) categories
    /\ getcol df (ustr "Availability Status") = Ok statuses
    /\ Forall (fun x => x = CStr (ustr "In stock")
                        \/ x = CStr (ustr "Out of stock")) statuses.
Proof.
  intros H. apply process_book_data_ok in H as [prices [_ ->]].
  eexists. eexists. split; [reflexivity|]. split; [|split; [reflexivity|]].
  - unfold raw_column. rewrite map_map. apply Forall_forall.
    intros x Hx. apply in_map_iff in Hx as [b [<- Hb]].
    apply filter_In in Hb as [_ Hb]. unfold has_category_in, isin in Hb.
    destruct (dict_get (ustr "Category") b) as [c|]; [|discriminate].
    exists c. split; [reflexivity | now apply mem_In].
  - apply Forall_forall. intros x Hx. apply in_map_iff in Hx as [o [<- _]].
    unfold availability_status. destruct (contains _ _); tauto.
Qed.

Lemma processed_frame_domains_witness :
  exists categories,
    getcol sample_frame (ustr "Category") = Ok categories
    /\ Forall (fun x => exists c, x = CStr c /\ In c TARGET_CATEGORIES) categories.
Proof.
  destruct (processed_frame_domains sample_books sample_frame process_sample_books)
    as [categories [statuses [H1 [H2 _]]]].
  exists categories. split; assumption.
Defined.

(* ================================================================== *)
(** * scrape_and_save_data *)

Lemma no_details_no_category (s : site) (a : article) (rec : dict) (l : list event) :
  (forall url, try_book_details s url = None) ->
  process_article s a = (Some rec, l) ->
  dict_get (ustr "Category") rec = None.
Proof.
  intros Hfail. unfold process_article, get_book_details.
  destruct (href a) as [h|]; [|discriminate]. rewrite Hfail.
  destruct (title a) as [t|]; [|discriminate].
  destruct (price_color a) as [p|]; [|discriminate].
  destruct (rating_of a) as [r|]; [|discriminate].
  intros [= <- _]. reflexivity.
Qed.

(** When the crawl returns no record, scrape_and_save_data returns the
    frame without columns and writes no file: process_book_data, which
    would raise on the empty list, is not called.  When it returns records,
    the function gives what process_book_data gives for them and writes
    that same frame.  So when records were crawled but no detail page could
    be read, it raises KeyError for Category: no record has that key. *)
Theorem scrape_and_save_data_cases
  (fuel : nat) (s : site) (books : list dict) (log : list event) :
  scrape_books fuel s = Some (books, log) ->
  (books = [] ->
   scrape_and_save_data fuel s = Some (Ok {| returned := []; written := None |}))
  /\ (books <> [] ->
      scrape_and_save_data fuel s
      = Some (df <- process_book_data books ;;
              Ok {| returned := df; written := Some df |}))
  /\ (books <> [] ->
      (forall url, try_book_details s url = None) ->
      scrape_and_save_data fuel s = Some (Raise (KeyError (ustr "Category")))).
Proof.
  intros H.
  assert (H2 : books <> [] ->
      scrape_and_save_data fuel s
      = Some (df <- process_book_data books ;;
              Ok {| returned := df; written := Some df |})).
  { intros Hne. unfold scrape_and_save_data. rewrite H.
    destruct books; [congruence | reflexivity]. }
  split; [|split; [exact H2|]].
  - intros ->. unfold scrape_and_save_data. now rewrite H.
  - intros Hne Hfail. rewrite (H2 Hne).
    assert (Hnone : Forall (fun rec => dict_get (ustr "Category") rec = None) books).
    { apply (scrape_pages_forall _ s fuel
               (fun a rec l => no_details_no_category s a rec l Hfail)
               1 [] [] books log H).
      constructor. }
    rewrite process_book_data_unfold.
    destruct (mem (ustr "Category") (keys_union books)) eqn:E; [|reflexivity].
    apply mem_In, keys_union_In in E as [b [Hb Hc]].
    rewrite Forall_forall in Hnone. now apply Hnone in Hb.
Qed.

Lemma scrape_and_save_data_cases_witness :
  scrape_and_save_data 2 detail_down_site
  = Some (Raise (KeyError (ustr "Category"))).
Proof.
  apply (proj2 (proj2 (scrape_and_save_data_cases 2 detail_down_site
           [ [ (ustr "Title", ustr "A Light in the Attic");
               (ustr "Price", ustr "Â£51.77");
               (ustr "Rating", ustr "Three");
               (ustr "Product Link", sample_link) ] ]
           [ErrDetails sample_link; ScrapedPage 1]
           ltac:(vm_compute; reflexivity)))).
  - discriminate.
  - reflexivity.
Defined.

(* ================================================================== *)
(** * Prices of the catalogue's form *)











(* ================================================================== *)
(** * The existence questions *)




(* ================================================================== *)
(** * Grouping by category *)


Lemma str_leb_total (a b : pystr) : str_leb a b = false -> str_leb b a = true.
Proof.
  revert b. induction a as [|x a IH]; intros [|y b]; simpl; try discriminate;
    try reflexivity.
  intros H. apply orb_false_iff in H as [H1 H2].
  apply N.ltb_ge in H1. apply andb_false_iff in H2.
  destruct (N.eq_dec x y) as [->|Hne].
  - rewrite N.eqb_refl in *. destruct H2 as [H2|H2]; [discriminate|].
    rewrite (IH b H2). apply orb_true_r.
  - assert (E : (y <? x) = true) by (apply N.ltb_lt; lia). now rewrite E.
Qed.

Lemma str_leb_trans (a b c : pystr) :
  str_leb a b = true -> str_leb b c = true -> str_leb a c = true.
Proof.
  revert b c. induction a as [|x a IH]; intros [|y b] [|z c]; simpl;
    try discriminate; try reflexivity.
  intros H1 H2. apply orb_true_iff in H1, H2. apply orb_true_iff.
  rewrite !andb_true_iff, !N.ltb_lt, !N.eqb_eq in *.
  destruct H1 as [H1|[H1 H1']], H2 as [H2|[H2 H2']].
  - left. lia.
  - left. lia.
  - left. lia.
  - right. split; [lia|]. now apply IH with b.
Qed.

Lemma insert_sorted_Sorted (k : pystr) (l : list pystr) :
  Sorted str_le l -> Sorted str_le (insert_sorted k l).
Proof.
  induction 1 as [|k' l Hs IH Hh]; simpl.
  - repeat constructor.
  - destruct (str_leb k k') eqn:E.
    + constructor; [now constructor | now constructor].
    + constructor; [exact IH|].
      apply str_leb_total in E.
      destruct l as [|k2 l]; simpl.
      * now constructor.
      * destruct (str_leb k k2); constructor; [exact E|].
        now inversion Hh.
Qed.

Lemma sort_keys_Sorted (l : list pystr) : StronglySorted str_le (sort_keys l).
Proof.
  apply Sorted_StronglySorted.
  - intros a b c. apply str_leb_trans.
  - unfold sort_keys. induction l as [|k l IH]; simpl; [constructor|].
    now apply insert_sorted_Sorted.
Qed.

Lemma fold_add_key_NoDup (l acc : list pystr) :
  NoDup acc -> NoDup (fold_left add_key l acc).
Proof.
  revert acc. induction l as [|k l IH]; intros acc H; simpl; [exact H|].
  apply IH. unfold add_key. destruct (mem k acc) eqn:E; [exact H|].
  apply NoDup_app; [exact H | repeat constructor; intros [] |].
  intros x Hx [<-|[]]. apply mem_In in Hx. congruence.
Qed.

Lemma insert_sorted_NoDup (k : pystr) (l : list pystr) :
  ~ In k l -> NoDup l -> NoDup (insert_sorted k l).
Proof.
  induction l as [|k' l IH]; simpl; intros Hk Hl.
  - repeat constructor. intros [].
  - destruct (str_leb k k').
    + constructor; [exact Hk | exact Hl].
    + inversion Hl; subst. constructor.
      * rewrite insert_sorted_In. intros [->|H]; tauto.
      * apply IH; tauto.
Qed.

Lemma sort_keys_NoDup (l : list pystr) : NoDup l -> NoDup (sort_keys l).
Proof.
  unfold sort_keys. induction 1 as [|k l Hk Hl IH]; simpl; [constructor|].
  apply insert_sorted_NoDup; [|exact IH].
  change (fold_right insert_sorted [] l) with (sort_keys l).
  now rewrite sort_keys_In.
Qed.

Lemma group_keys_NoDup (df : list book) : NoDup (group_keys df).
Proof.
  apply sort_keys_NoDup. unfold unique. apply fold_add_key_NoDup. constructor.
Qed.

Lemma count_key_once (c : pystr) (keys : list pystr) :
  NoDup keys -> In c keys ->
  list_sum (map (fun k => if str_eqb c k then 1 else 0)%nat keys) = 1%nat.
Proof.
  induction 1 as [|k keys Hk Hn IH]; simpl; [tauto|].
  intros [->|Hin].
  - rewrite str_eqb_refl.
    assert (H0 : forall l, ~ In c l ->
              list_sum (map (fun k => if str_eqb c k then 1 else 0)%nat l) = 0%nat).
    { induction l as [|x l IHl]; simpl; [reflexivity|]. intros Hx.
      destruct (str_eqb c x) eqn:E; [apply str_eqb_eq in E; subst; tauto|].
      apply IHl. tauto. }
    now rewrite (H0 keys Hk).
  - destruct (str_eqb c k) eqn:E.
    + apply str_eqb_eq in E. subst. tauto.
    + now apply IH.
Qed.

Lemma group_sizes_partition (keys : list pystr) (df : list book) :
  NoDup keys ->
  (forall b, In b df -> In (Category b) keys) ->
  list_sum (map (fun c => List.length (filter (in_category c) df)) keys)
  = List.length df.
Proof.
  intros Hn. induction df as [|b df IH]; intros Hall.
  - clear Hn Hall. induction keys as [|k keys IHk]; simpl; [reflexivity | exact IHk].
  - assert (Hsplit : forall l,
      list_sum (map (fun c => List.length (filter (in_category c) (b :: df))) l)
      = (list_sum (map (fun k => if str_eqb (Category b) k then 1 else 0)%nat l)
         + list_sum (map (fun c => List.length (filter (in_category c) df)) l))%nat).
    { assert (Hcons : forall (a : nat) (l : list nat),
                list_sum (a :: l) = (a + list_sum l)%nat) by reflexivity.
      induction l as [|k l IHl]; [reflexivity|].
      rewrite !map_cons, !Hcons, IHl. cbn [filter]. unfold in_category at 1.
      destruct (str_eqb (Category b) k); cbn [List.length]; lia. }
    rewrite Hsplit, count_key_once, IH; [reflexivity | | exact Hn |].
    + intros b' Hb'. apply Hall. now right.
    + apply Hall. now left.
Qed.

Lemma group_sizes_positive (df : list book) :
  Forall (fun cn => (0 < snd cn)%nat) (group_sizes df).
Proof.
  unfold group_sizes. apply Forall_forall. intros cn Hcn.
  apply in_map_iff in Hcn as [c [<- Hc]]. cbn [snd].
  apply group_keys_In in Hc as [b [Hb Hc]].
  assert (Hin : In b (filter (in_category c) df)).
  { apply filter_In. split; [exact Hb | now apply str_eqb_eq]. }
  destruct (filter (in_category c) df); [destruct Hin | simpl; lia].
Qed.

(** Grouping by category loses and repeats no book: the groups are the
    categories that occur in the dataset, each once, in ascending string
    order, no group is empty, and the group sizes add up to the number of
    books. *)
Theorem groupby_category_partition (df : list book) :
  map fst (group_sizes df) = group_keys df
  /\ (forall c, In c (group_keys df) <-> exists b, In b df /\ Category b = c)
  /\ NoDup (group_keys df)
  /\ StronglySorted str_le (group_keys df)
  /\ Forall (fun cn => (0 < snd cn)%nat) (group_sizes df)
  /\ list_sum (map snd (group_sizes df)) = List.length df.
Proof.
  split; [|split; [|split; [|split; [|split]]]].
  - unfold group_sizes. rewrite map_map. apply map_id.
  - intros c. apply group_keys_In.
  - apply group_keys_NoDup.
  - apply sort_keys_Sorted.
  - apply group_sizes_positive.
  - unfold group_sizes. rewrite map_map. cbn [snd].
    apply group_sizes_partition; [apply group_keys_NoDup|].
    intros b Hb. apply group_keys_In. now exists b.
Qed.

(* ================================================================== *)
(** * The answers to the numerical questions *)





(* ================================================================== *)
(** * The category with the highest share of out-of-stock books *)










(* ================================================================== *)
(** * Frames: construction, assignment and drop *)

Lemma keys_union_NoDup (books : list dict) : NoDup (keys_union books).
Proof.
  unfold keys_union.
  assert (H : forall acc, NoDup acc ->
    NoDup (fold_left (fun acc b => fold_left add_key (map fst b) acc) books acc)).
  { induction books as [|b books IH]; intros acc Hacc; simpl; [exact Hacc|].
    apply IH. now apply fold_add_key_NoDup. }
  apply H. constructor.
Qed.

Lemma columns_frame_of (cols : list pystr) (books : list dict) :
  columns (frame_of cols books) = cols.
Proof.
  unfold columns, frame_of. rewrite map_map. apply map_id.
Qed.

(** The frame built from a list of records has one column for each key
    that occurs in some record, each once; reading such a column gives, in
    the order of the records, the record's value or the missing value where
    the record lacks the key; reading any other column raises KeyError. *)
Theorem DataFrame_of_records (books : list dict) (c : pystr) :
  NoDup (columns (DataFrame books))
  /\ (In c (columns (DataFrame books))
      <-> exists b, In b books /\ dict_get c b <> None)
  /\ ((exists b, In b books /\ dict_get c b <> None) ->
      getcol (DataFrame books) c = Ok (map (dict_get c) books))
  /\ ((forall b, In b books -> dict_get c b = None) ->
      getcol (DataFrame books) c = Raise (KeyError c)).
Proof.
  unfold DataFrame. rewrite columns_frame_of.
  split; [apply keys_union_NoDup|]. split; [apply keys_union_In|].
  unfold getcol. rewrite assoc_get_frame_of. split.
  - intros H. apply keys_union_In, mem_In in H. now rewrite H.
  - intros H. destruct (mem c (keys_union books)) eqn:E; [|reflexivity].
    apply mem_In, keys_union_In in E as [b [Hb Hc]]. now apply H in Hb.
Qed.

Lemma DataFrame_of_records_witness :
  getcol (DataFrame sample_books) (ustr "Rating")
  = Ok (map (dict_get (ustr "Rating")) sample_books).
Proof.
  apply (proj1 (proj2 (proj2 (DataFrame_of_records sample_books (ustr "Rating"))))).
  exists (mk_book "A" "a fine book" "Travel" "Â£51.77" "Three"
                  "In stock (19 available)").
  split; [now left | vm_compute; discriminate].
Defined.






(* ================================================================== *)
(** * Records of other categories *)

Lemma keys_union_app_mem (books more : list dict) (c : pystr) :
  mem c (keys_union books) = true -> mem c (keys_union (books ++ more)) = true.
Proof.
  intros H. apply mem_In, keys_union_In in H as [b [Hb Hc]].
  apply mem_In, keys_union_In. exists b. split; [|exact Hc].
  apply in_or_app. now left.
Qed.

(** Records whose Category is not a target category (or is missing) have
    no effect on the result beyond the columns they may provide: when the
    given records already carry the Category and the six wanted columns,
    adding such records, whatever their price text or missing fields,
    leaves the result of process_book_data unchanged.  An unparseable
    price outside the target categories therefore never raises. *)
Theorem process_book_data_ignores_other_categories (books more : list dict) :
  mem (ustr "Category") (keys_union books) = true ->
  first_missing books REQUIRED_COLUMNS = None ->
  (forall b, In b more -> has_category_in TARGET_CATEGORIES b = false) ->
  process_book_data (books ++ more) = process_book_data books.
Proof.
  intros Hcat Hmiss Hmore.
  rewrite !process_book_data_unfold, Hcat, Hmiss.
  rewrite (keys_union_app_mem books more _ Hcat).
  assert (Hm : first_missing (books ++ more) REQUIRED_COLUMNS = None).
  { destruct (first_missing (books ++ more) REQUIRED_COLUMNS) as [c|] eqn:E;
      [|reflexivity].
    unfold first_missing in E, Hmiss.
    apply find_some in E as [Hin Hc]. apply negb_true_iff in Hc.
    pose proof (find_none _ _ Hmiss c Hin) as Hb. apply negb_false_iff in Hb.
    rewrite (keys_union_app_mem books more c Hb) in Hc. discriminate. }
  rewrite Hm.
  assert (Hk : kept_books (books ++ more) = kept_books books).
  { unfold kept_books. rewrite filter_app.
    assert (Hnil : filter (has_category_in TARGET_CATEGORIES) more = []).
    { clear Hm. induction more as [|b more IH]; [reflexivity|]. simpl.
      rewrite (Hmore b (or_introl eq_refl)). apply IH.
      intros b' Hb'. apply Hmore. now right. }
    now rewrite Hnil, app_nil_r. }
  now rewrite Hk.
Qed.

Lemma process_book_data_ignores_other_categories_witness :
  process_book_data
    (sample_books ++ [mk_book "Z" "d" "Poetry" "not a price" "One" "In stock"])
  = process_book_data sample_books.
Proof.
  apply process_book_data_ignores_other_categories.
  - reflexivity.
  - reflexivity.
  - intros b [<-|[]]. reflexivity.
Defined.
